(** * Private topics API: the views of zds/mp/api/views.py

    The file declares two key constructors and two class-based views,
    [PrivateTopicListAPI] and [PrivateTopicDetailAPI].  The views are
    embedded as records of attributes and hooks plus a table of handlers,
    on top of a model of the request cycle they plug into
    (authentication, permission checks, handler lookup, the generic verbs
    and the two response decorators).  What the file imports from the rest
    of the project (the manager of [PrivateTopic], the serializers, the
    [IsParticipant] permission, the [LeavePrivateTopic] mixin) and what the
    deployment configures are parameters. *)

From stdpp Require Import base option list strings gmap.
From stdpp Require Import pretty.
From Stdlib Require Import ZArith DecimalString.

Local Open Scope string_scope.

(** ** HTTP vocabulary *)

(** [rest_framework.status]: the codes the views and their docstrings name. *)
Module status.
Definition HTTP_200_OK : Z := 200.
Definition HTTP_201_CREATED : Z := 201.
Definition HTTP_204_NO_CONTENT : Z := 204.
Definition HTTP_304_NOT_MODIFIED : Z := 304.
Definition HTTP_400_BAD_REQUEST : Z := 400.
Definition HTTP_401_UNAUTHORIZED : Z := 401.
Definition HTTP_403_FORBIDDEN : Z := 403.
Definition HTTP_404_NOT_FOUND : Z := 404.
Definition HTTP_405_METHOD_NOT_ALLOWED : Z := 405.
Definition HTTP_412_PRECONDITION_FAILED : Z := 412.
Definition HTTP_500_INTERNAL_SERVER_ERROR : Z := 500.
End status.

(** [request.user]: a member, or the anonymous user (whose [id] is [None]). *)
Inductive User :=
  | AnonymousUser
  | Member (id : Z).

Definition user_id (u : User) : option Z :=
  match u with
  | AnonymousUser => None
  | Member i => Some i
  end.

Definition is_authenticated (u : User) : bool :=
  match u with
  | AnonymousUser => false
  | Member _ => true
  end.

(** What the authenticators made of the request: a member, no credentials
    at all, or credentials that were refused. *)
Inductive Credentials :=
  | Valid (id : Z)
  | Missing
  | Refused.

(** A [QueryDict]: a multi-valued dictionary, in the order received. *)
Definition QueryDict := list (string * string).

Definition getlist (key : string) (d : QueryDict) : list string :=
  snd <$> filter (λ kv, kv.1 = key) d.

(** [QueryDict.get]: the last value given for the key. *)
Definition getlast (key : string) (d : QueryDict) : option string :=
  last (getlist key d).

(** ** Querysets

    A queryset is a lazy description of a query; it reads the database
    when a verb evaluates it.  The first three constructors are the calls
    the views make on [PrivateTopic.objects]; the last two are what the
    generic layer adds: one filter backend, and the lookup by primary
    key. *)
Module filters.
Inductive FilterBackend :=
  | SearchFilter
  | OrderingFilter
  | Configured (name : string).
End filters.

Module objects.
Inductive QuerySet :=
  | all
  | get_private_topics_of_user (user_id : option Z)
  | get_private_topics_selected (user_id : option Z) (pks : list string)
  | filtered (backend : filters.FilterBackend)
             (search_fields ordering_fields : list string)
             (query_params : QueryDict) (queryset : QuerySet)
  | lookup_pk (pk : Z) (queryset : QuerySet).
End objects.

#[global] Instance FilterBackend_eq_dec : EqDecision filters.FilterBackend.
Proof. solve_decision. Defined.

#[global] Instance QuerySet_eq_dec : EqDecision objects.QuerySet.
Proof. solve_decision. Defined.

(** ** Key bits and keys

    [rest_framework_extensions.key_constructor.bits]: the bit classes the
    file instantiates, and the one [DefaultKeyConstructor] brings. *)
Module bits.
Inductive KeyBit :=
  | PaginationKeyBit
  | QueryParamsKeyBit (params : list string)
  | ListSqlQueryKeyBit
  | RetrieveSqlQueryKeyBit
  | UniqueViewIdKeyBit
  | UniqueMethodIdKeyBit
  | FormatKeyBit
  | LanguageKeyBit.
End bits.

#[global] Instance KeyBit_eq_dec : EqDecision bits.KeyBit.
Proof. solve_decision. Defined.

(** What a bit contributes to a key: a text, a choice of query parameters,
    or the text of an SQL query, which is identified here with the
    queryset it renders. *)
Inductive BitData :=
  | BText (s : string)
  | BParams (kv : QueryDict)
  | BSql (q : objects.QuerySet).

#[global] Instance BitData_eq_dec : EqDecision BitData.
Proof. solve_decision. Defined.

(** A key constructor is a class namespace: bit name to bit.  A key is
    the same dictionary with every bit replaced by its data (the library
    hashes its JSON rendering). *)
Abbreviation KeyConstructor := (gmap string bits.KeyBit).
Abbreviation Key := (gmap string BitData).

(** ** Requests *)
Record Request := {
  method : string;
  credentials : Credentials;
  data : QueryDict;
  query_params : QueryDict;
  kwargs : gmap string Z;
  accepted_format : string;
  language : string;
  if_none_match : list Key
}.

Definition user (request : Request) : User :=
  match credentials request with
  | Valid i => Member i
  | Missing | Refused => AnonymousUser
  end.

(** ** Handlers as state transformers that may raise

    A handler runs in a state and either returns or raises; what it did
    to the state before raising stays done. *)
Definition StateErr (S E A : Type) : Type := S → (E + A) * S.

Definition ret {S E A} (a : A) : StateErr S E A := λ st, (inr a, st).

Definition raise {S E A} (e : E) : StateErr S E A := λ st, (inl e, st).

Definition bind {S E A B}
    (m : StateErr S E A) (k : A → StateErr S E B) : StateErr S E B :=
  λ st, match m st with
        | (inr a, st') => k a st'
        | (inl e, st') => (inl e, st')
        end.

Notation "'let*' x ':=' m 'in' k" := (bind m (λ x, k))
  (at level 10, x name, m at level 100, k at level 200).
Notation "m ';;' k" := (bind m (λ _, k))
  (at level 100, k at level 200, right associativity).

(** ** What the file imports from the project

    [zds.mp.api.permissions] and [zds.mp.api.serializers]: the classes the
    views name. *)
Inductive Permission :=
  | IsAuthenticated
  | IsParticipant.

Inductive SerializerClass :=
  | PrivateTopicSerializer
  | PrivateTopicUpdateSerializer
  | PrivateTopicCreateSerializer.

#[global] Instance Permission_eq_dec : EqDecision Permission.
Proof. solve_decision. Defined.

#[global] Instance SerializerClass_eq_dec : EqDecision SerializerClass.
Proof. solve_decision. Defined.

(** The collaborators themselves are not part of the file: the model
    [PrivateTopic] and its manager, [LeavePrivateTopic.perform_destroy]
    (which acts for the user [get_current_user] returns), the test
    [IsParticipant] makes on a topic, and the serializers. *)
Class Collaborators := {
  PrivateTopic : Type;
  Database : Type;
  Data : Type;
  pk : PrivateTopic → Z;
  objects_all : Database → list PrivateTopic;
  private_topics_of_user : option Z → Database → list PrivateTopic;
  private_topics_selected :
    option Z → list string → Database → list PrivateTopic;
  leave : User → PrivateTopic → Database → Database;
  is_participant : User → PrivateTopic → bool;
  to_representation : SerializerClass → PrivateTopic → Data;
  serializer_create :
    SerializerClass → User → QueryDict → Database →
    Data + PrivateTopic * Database;
  serializer_update :
    SerializerClass → bool → PrivateTopic → User → QueryDict → Database →
    Data + PrivateTopic * Database
}.

(** What the deployment and the libraries decide: the challenge header of
    the first authentication class (none: the scheme has no challenge),
    the default filter backends, the query parameters of the paginator,
    the bits of [DefaultKeyConstructor], what a filter backend and the
    paginator do to a list of topics. *)
Class Framework `{Collaborators} := {
  authenticate_header : option string;
  DEFAULT_FILTER_BACKENDS : list filters.FilterBackend;
  pagination_params : list string;
  DefaultKeyConstructor : KeyConstructor;
  backend_filter :
    filters.FilterBackend → list string → list string → QueryDict →
    list PrivateTopic → list PrivateTopic;
  paginate_queryset : QueryDict → list PrivateTopic → option (list PrivateTopic)
}.

(** The attributes and hooks of a view class: what the generic layer reads
    from [self]. *)
Record GenericAPIView := APIView {
  view_id : string;
  permission_classes : list Permission;
  filter_backends : list filters.FilterBackend;
  search_fields : list string;
  ordering_fields : list string;
  get_current_user : Request → User;
  get_serializer_class : Request → option SerializerClass;
  get_queryset : Request → objects.QuerySet
}.

(** The two decorators the file uses, each with its key constructor. *)
Inductive Decorator :=
  | etag (key_func : KeyConstructor)
  | cache_response (key_func : KeyConstructor).

(** ** Responses, state and exceptions *)
Module http.
Section http.
Context `{Fw : Framework}.

Inductive Body :=
  | NoBody
  | One (d : Data)
  | Many (ds : list Data).

Record Response := {
  status_code : Z;
  body : Body;
  www_authenticate : option string;
  etag_header : option Key
}.

(** [Response(data, status)] *)
Definition mkResponse (s : Z) (b : Body) : Response :=
  {| status_code := s; body := b; www_authenticate := None;
     etag_header := None |}.

(** The state a request runs in: the database and the response cache
    (entries do not expire here). *)
Record State := {
  db : Database;
  cache : list (Key * Response)
}.

Inductive APIException :=
  | AuthenticationFailed
  | NotAuthenticated
  | PermissionDenied
  | Http404
  | MethodNotAllowed
  | ValidationError (errors : Data)
  | Uncaught (name : string).

(** What a handler is: it reads and writes the state, and may raise. *)
Definition M (A : Type) : Type := StateErr State APIException A.

Definition get_db : M Database := λ st, (inr (db st), st).

Definition modify_db (f : Database → Database) : M unit :=
  λ st, (inr tt, {| db := f (db st); cache := cache st |}).

Definition get_cache : M (list (Key * Response)) := λ st, (inr (cache st), st).

Definition modify_cache
    (f : list (Key * Response) → list (Key * Response)) : M unit :=
  λ st, (inr tt, {| db := db st; cache := f (cache st) |}).

(** [cache.get(key)]: the latest entry stored under the key. *)
Fixpoint cache_get (k : Key) (c : list (Key * Response)) : option Response :=
  match c with
  | [] => None
  | (k', r) :: c' => if decide (k' = k) then Some r else cache_get k c'
  end.

(** [cache.set(key, response)] *)
Definition cache_set (k : Key) (r : Response) (c : list (Key * Response)) :
    list (Key * Response) :=
  (k, r) :: c.

(** [for x in xs: f(x)] *)
Fixpoint for_each {A} (xs : list A) (f : A → M unit) : M unit :=
  match xs with
  | [] => ret tt
  | x :: xs' => f x ;; for_each xs' f
  end.

(** A method of a view class: its name, its decorators from the outermost
    in, and its body. *)
Record Handler := {
  handler_name : string;
  decorators : list Decorator;
  body_of : Request → M Response
}.

Definition plain (name : string) (b : Request → M Response) : Handler :=
  {| handler_name := name; decorators := []; body_of := b |}.

(** A view class: the attributes and hooks, and the handlers by HTTP
    method (as [request.method] spells it). *)
Record ViewClass := {
  view : GenericAPIView;
  handlers : gmap string Handler
}.

End http.
End http.
Export http.

(** ** The request cycle the views plug into *)
Module views.
Section views.
Context `{Fw : Framework}.

(** Evaluation of a queryset against the database. *)
Fixpoint rows (q : objects.QuerySet) (d : Database) : list PrivateTopic :=
  match q with
  | objects.all => objects_all d
  | objects.get_private_topics_of_user u => private_topics_of_user u d
  | objects.get_private_topics_selected u pks => private_topics_selected u pks d
  | objects.filtered b sfs ofs qp q' => backend_filter b sfs ofs qp (rows q' d)
  | objects.lookup_pk v q' => filter (λ t, pk t = v) (rows q' d)
  end.

(** Modelled from the spec: [IsParticipant] is not part of the file; it is
    the collaborator that decides on a topic, so at the level of the view
    it keeps the [has_permission] of [BasePermission], which grants.
    [IsAuthenticated.has_permission] is the library's. *)
Definition has_permission (p : Permission) (request : Request) : bool :=
  match p with
  | IsAuthenticated => is_authenticated (user request)
  | IsParticipant => true
  end.

(** Modelled from the spec: [IsParticipant.has_object_permission], the
    collaborator that decides who may view or leave a topic; it tests the
    requesting user against the topic it is given.  [IsAuthenticated]
    keeps the one of [BasePermission]. *)
Definition has_object_permission
    (p : Permission) (request : Request) (obj : PrivateTopic) : bool :=
  match p with
  | IsAuthenticated => true
  | IsParticipant => is_participant (user request) obj
  end.

(** [APIView.permission_denied]: not authenticated when no authenticator
    succeeded, permission denied otherwise. *)
Definition permission_denied {A} (request : Request) : M A :=
  match credentials request with
  | Valid _ => raise PermissionDenied
  | Missing | Refused => raise NotAuthenticated
  end.

(** The permission classes in their order; the first that refuses ends
    the request. *)
Fixpoint check_all (test : Permission → bool) (ps : list Permission)
    (request : Request) : M unit :=
  match ps with
  | [] => ret tt
  | p :: ps' =>
      if test p then check_all test ps' request else permission_denied request
  end.

Definition check_permissions (self : GenericAPIView) (request : Request) :
    M unit :=
  check_all (λ p, has_permission p request) (permission_classes self) request.

Definition check_object_permissions
    (self : GenericAPIView) (request : Request) (obj : PrivateTopic) : M unit :=
  check_all (λ p, has_object_permission p request obj)
    (permission_classes self) request.

(** [APIView.perform_authentication]: refused credentials raise. *)
Definition perform_authentication (request : Request) : M unit :=
  match credentials request with
  | Refused => raise AuthenticationFailed
  | Valid _ | Missing => ret tt
  end.

(** [APIView.initial], the part the views depend on: authentication, then
    the permission classes (content negotiation and throttling are left
    out). *)
Definition initial (self : GenericAPIView) (request : Request) : M unit :=
  perform_authentication request ;; check_permissions self request.

(** The 401 response, with its challenge. *)
Definition unauthorized (challenge : string) : Response :=
  {| status_code := status.HTTP_401_UNAUTHORIZED; body := NoBody;
     www_authenticate := Some challenge; etag_header := None |}.

(** [APIView.handle_exception]: the response an exception becomes.  The
    two authentication errors carry the challenge and keep their 401 when
    there is one, and are turned into 403 when there is none. *)
Definition handle_exception (e : APIException) : Response :=
  match e with
  | AuthenticationFailed | NotAuthenticated =>
      match authenticate_header with
      | Some challenge => unauthorized challenge
      | None => mkResponse status.HTTP_403_FORBIDDEN NoBody
      end
  | PermissionDenied => mkResponse status.HTTP_403_FORBIDDEN NoBody
  | Http404 => mkResponse status.HTTP_404_NOT_FOUND NoBody
  | MethodNotAllowed => mkResponse status.HTTP_405_METHOD_NOT_ALLOWED NoBody
  | ValidationError errors => mkResponse status.HTTP_400_BAD_REQUEST (One errors)
  | Uncaught _ => mkResponse status.HTTP_500_INTERNAL_SERVER_ERROR NoBody
  end.

(** [GenericAPIView.filter_queryset]: every backend of the view in turn. *)
Definition filter_queryset (self : GenericAPIView) (request : Request)
    (queryset : objects.QuerySet) : objects.QuerySet :=
  foldl (λ q b, objects.filtered b (search_fields self) (ordering_fields self)
                  (query_params request) q)
        queryset (filter_backends self).

(** [GenericAPIView.get_object]: the lookup by the [pk] of the URL in the
    filtered queryset, 404 when it finds nothing, then the object
    permissions. *)
Definition get_object (self : GenericAPIView) (request : Request) :
    M PrivateTopic :=
  let queryset := filter_queryset self request (get_queryset self request) in
  match kwargs request !! "pk" with
  | None => raise (Uncaught "AssertionError")
  | Some v =>
      let* d := get_db in
      match rows (objects.lookup_pk v queryset) d with
      | [] => raise Http404
      | [obj] => check_object_permissions self request obj ;; ret obj
      | _ :: _ :: _ => raise (Uncaught "MultipleObjectsReturned")
      end
  end.

(** [GenericAPIView.get_serializer]: calls what [get_serializer_class]
    returns; calling [None] is a [TypeError]. *)
Definition get_serializer (self : GenericAPIView) (request : Request) :
    M SerializerClass :=
  match get_serializer_class self request with
  | Some c => ret c
  | None => raise (Uncaught "TypeError")
  end.

(** Modelled from the spec: [LeavePrivateTopic.perform_destroy], first in
    the bases of both views; the mixin decides what leaving a topic does,
    for the user [get_current_user] returns. *)
Definition perform_destroy (self : GenericAPIView) (request : Request)
    (topic : PrivateTopic) : M unit :=
  modify_db (leave (get_current_user self request) topic).

End views.
End views.
Export views.

(** ** The generic verbs: [rest_framework.mixins] *)
Module generics.
Section generics.
Context `{Fw : Framework}.

(** [CreateModelMixin.create]: validate, save, 201 with the new topic. *)
Definition create (self : GenericAPIView) (request : Request) : M Response :=
  let* c := get_serializer self request in
  let* d := get_db in
  match serializer_create c (user request) (data request) d with
  | inl errors => raise (ValidationError errors)
  | inr (topic, d') =>
      modify_db (λ _, d') ;;
      ret (mkResponse status.HTTP_201_CREATED (One (to_representation c topic)))
  end.

(** [RetrieveModelMixin.retrieve] *)
Definition retrieve (self : GenericAPIView) (request : Request) : M Response :=
  let* instance := get_object self request in
  let* c := get_serializer self request in
  ret (mkResponse status.HTTP_200_OK (One (to_representation c instance))).

(** [UpdateModelMixin.update], and [partial_update] when [partial]. *)
Definition update (partial : bool) (self : GenericAPIView) (request : Request) :
    M Response :=
  let* instance := get_object self request in
  let* c := get_serializer self request in
  let* d := get_db in
  match serializer_update c partial instance (user request) (data request) d with
  | inl errors => raise (ValidationError errors)
  | inr (topic, d') =>
      modify_db (λ _, d') ;;
      ret (mkResponse status.HTTP_200_OK (One (to_representation c topic)))
  end.

(** [DestroyModelMixin.destroy] *)
Definition destroy (self : GenericAPIView) (request : Request) : M Response :=
  let* instance := get_object self request in
  perform_destroy self request instance ;;
  ret (mkResponse status.HTTP_204_NO_CONTENT NoBody).

(** The handlers the generic view classes define. *)
Definition DestroyAPIView (self : GenericAPIView) : gmap string Handler :=
  {[ "DELETE" := plain "delete" (destroy self) ]}.

Definition RetrieveUpdateDestroyAPIView (self : GenericAPIView) :
    gmap string Handler :=
  {[ "GET" := plain "get" (retrieve self);
     "PUT" := plain "put" (update false self);
     "PATCH" := plain "patch" (update true self);
     "DELETE" := plain "delete" (destroy self) ]}.

(** [ListModelMixin.list]: filter, paginate (404 on a page that does not
    exist), serialize. *)
Definition list (self : GenericAPIView) (request : Request) : M Response :=
  let queryset := filter_queryset self request (get_queryset self request) in
  let* d := get_db in
  match paginate_queryset (query_params request) (rows queryset d) with
  | None => raise Http404
  | Some page =>
      let* c := get_serializer self request in
      ret (mkResponse status.HTTP_200_OK (Many (to_representation c <$> page)))
  end.

Definition ListCreateAPIView (self : GenericAPIView) : gmap string Handler :=
  {[ "GET" := plain "get" (list self); "POST" := plain "post" (create self) ]}.

End generics.
End generics.

(** ** Keys, the two decorators, and dispatch *)
Module extensions.
Section extensions.
Context `{Fw : Framework}.

(** [QueryParamsKeyBit.get_data]: of the parameters named, those the
    request has, each with its value. *)
Definition params_data (params : list string) (d : QueryDict) : QueryDict :=
  omap (λ p, (λ v, (p, v)) <$> getlast p d) params.

(** What each bit reads.  The two SQL bits render the queryset the view
    would run; the retrieve one needs the [pk] of the URL and fails
    without it. *)
Definition bit_data (b : bits.KeyBit) (self : GenericAPIView)
    (method_name : string) (request : Request) : option BitData :=
  match b with
  | bits.PaginationKeyBit =>
      Some (BParams (params_data pagination_params (query_params request)))
  | bits.QueryParamsKeyBit params =>
      Some (BParams (params_data params (query_params request)))
  | bits.ListSqlQueryKeyBit =>
      Some (BSql (filter_queryset self request (get_queryset self request)))
  | bits.RetrieveSqlQueryKeyBit =>
      (λ v, BSql (objects.lookup_pk v
                    (filter_queryset self request (get_queryset self request))))
        <$> kwargs request !! "pk"
  | bits.UniqueViewIdKeyBit => Some (BText (view_id self))
  | bits.UniqueMethodIdKeyBit =>
      Some (BText (view_id self +:+ "." +:+ method_name))
  | bits.FormatKeyBit => Some (BText (accepted_format request))
  | bits.LanguageKeyBit => Some (BText (language request))
  end.

(** [KeyConstructor.get_key]: the data of every bit, under the bit's name. *)
Definition calculate_key (key_func : KeyConstructor) (self : GenericAPIView)
    (method_name : string) (request : Request) : option Key :=
  let m := (λ b, bit_data b self method_name request) <$> key_func in
  if decide (map_Forall (λ _ o, is_Some o) m) then Some (omap id m) else None.

(** The methods a failed [If-None-Match] answers with 304. *)
Definition SAFE_METHODS : list string := ["GET"; "HEAD"; "OPTIONS"].

(** The [ETag] header is set when the response has none. *)
Definition set_etag (k : Key) (r : Response) : Response :=
  {| status_code := status_code r; body := body r;
     www_authenticate := www_authenticate r;
     etag_header := match etag_header r with
                    | Some k' => Some k'
                    | None => Some k
                    end |}.

(** One decorator around a method.  [etag] answers a request whose
    [If-None-Match] names the current key without calling the method
    ([If-Match] is left out); [cache_response] answers from the cache
    when it holds the key and stores what the method returns when it does
    not. *)
Definition decorate (d : Decorator) (self : GenericAPIView)
    (method_name : string) (h : Request → M Response) : Request → M Response :=
  λ request,
    match d with
    | etag key_func =>
        match calculate_key key_func self method_name request with
        | None => raise (Uncaught "KeyError")
        | Some k =>
            if decide (k ∈ if_none_match request) then
              ret (set_etag k
                     (mkResponse (if decide (method request ∈ SAFE_METHODS)
                                  then status.HTTP_304_NOT_MODIFIED
                                  else status.HTTP_412_PRECONDITION_FAILED)
                                 NoBody))
            else
              let* r := h request in ret (set_etag k r)
        end
    | cache_response key_func =>
        match calculate_key key_func self method_name request with
        | None => raise (Uncaught "KeyError")
        | Some k =>
            let* c := get_cache in
            match cache_get k c with
            | Some r => ret r
            | None =>
                let* r := h request in
                modify_cache (cache_set k r) ;; ret r
            end
        end
    end.

(** A method with its decorators applied, the first one outermost. *)
Definition run_handler (self : GenericAPIView) (h : Handler) :
    Request → M Response :=
  foldr (λ d k, decorate d self (handler_name h) k) (body_of h) (decorators h).

(** [APIView.dispatch]: [initial], then the handler of the method, then
    the conversion of what was raised. *)
Definition dispatch (cls : ViewClass) (request : Request) (st : State) :
    Response * State :=
  match (initial (view cls) request ;;
         match handlers cls !! method request with
         | Some h => run_handler (view cls) h request
         | None => raise MethodNotAllowed
         end) st with
  | (inr r, st') => (r, st')
  | (inl e, st') => (handle_exception e, st')
  end.

End extensions.
End extensions.
Export extensions.

(** * The file: zds/mp/api/views.py *)

(** [class PagingPrivateTopicListKeyConstructor(DefaultKeyConstructor)]:
    the four bits of the class body over those of the base class. *)
Definition PagingPrivateTopicListKeyConstructor `{Fw : Framework} :
    KeyConstructor :=
  {[ "pagination" := bits.PaginationKeyBit;
     "search" := bits.QueryParamsKeyBit ["search"; "ordering"];
     "list_sql_query" := bits.ListSqlQueryKeyBit;
     "unique_view_id" := bits.UniqueViewIdKeyBit ]}
  ∪ DefaultKeyConstructor.

(** [class DetailKeyConstructor(DefaultKeyConstructor)] *)
Definition DetailKeyConstructor `{Fw : Framework} : KeyConstructor :=
  {[ "format" := bits.FormatKeyBit;
     "language" := bits.LanguageKeyBit;
     "retrieve_sql_query" := bits.RetrieveSqlQueryKeyBit;
     "unique_view_id" := bits.UniqueViewIdKeyBit ]}
  ∪ DefaultKeyConstructor.

(** [class PrivateTopicListAPI(LeavePrivateTopic, ListCreateAPIView,
    DestroyAPIView)] *)
Module PrivateTopicListAPI.
Section PrivateTopicListAPI.
Context `{Fw : Framework}.

Definition permission_classes : list Permission := [IsAuthenticated].
Definition filter_backends : list filters.FilterBackend :=
  [filters.SearchFilter; filters.OrderingFilter].
Definition search_fields : list string := ["title"].
Definition ordering_fields : list string := ["pubdate"; "last_message"; "title"].
Definition list_key_func : KeyConstructor := PagingPrivateTopicListKeyConstructor.

Definition get_current_user (request : Request) : User := user request.

Definition get_serializer_class (request : Request) : option SerializerClass :=
  if decide (method request = "GET") then Some PrivateTopicSerializer
  else if decide (method request = "POST") then Some PrivateTopicCreateSerializer
  else None.

Definition get_queryset (request : Request) : objects.QuerySet :=
  if decide (method request = "DELETE") then
    let list := getlist "pk" (data request) in
    objects.get_private_topics_selected (user_id (user request)) list
  else objects.get_private_topics_of_user (user_id (user request)).

Definition self : GenericAPIView :=
  APIView "zds.mp.api.views.PrivateTopicListAPI"
    permission_classes filter_backends search_fields ordering_fields
    get_current_user get_serializer_class get_queryset.

Definition get : Handler :=
  {| handler_name := "get";
     decorators := [etag list_key_func; cache_response list_key_func];
     body_of := λ request, generics.list self request |}.

Definition post : Handler :=
  plain "post" (λ request, generics.create self request).

Definition delete : Handler :=
  plain "delete" (λ request,
    let* d := get_db in
    for_each (rows (get_queryset request) d)
      (λ topic, perform_destroy self request topic) ;;
    ret (mkResponse status.HTTP_204_NO_CONTENT NoBody)).

Definition cls : ViewClass :=
  {| view := self;
     handlers := {[ "GET" := get; "POST" := post; "DELETE" := delete ]}
                 ∪ (generics.ListCreateAPIView self
                    ∪ generics.DestroyAPIView self) |}.

End PrivateTopicListAPI.
End PrivateTopicListAPI.

(** [class PrivateTopicDetailAPI(LeavePrivateTopic,
    RetrieveUpdateDestroyAPIView)]; the class sets no filter backends of
    its own, so it has the configured ones. *)
Module PrivateTopicDetailAPI.
Section PrivateTopicDetailAPI.
Context `{Fw : Framework}.

Definition permission_classes : list Permission :=
  [IsAuthenticated; IsParticipant].
Definition queryset : objects.QuerySet := objects.all.
Definition obj_key_func : KeyConstructor := DetailKeyConstructor.

Definition get_current_user (request : Request) : User := user request.

Definition get_serializer_class (request : Request) : option SerializerClass :=
  if decide (method request = "GET") then Some PrivateTopicSerializer
  else if decide (method request = "PUT") then Some PrivateTopicUpdateSerializer
  else None.

(** [GenericAPIView.get_queryset]: the [queryset] attribute. *)
Definition get_queryset (request : Request) : objects.QuerySet := queryset.

Definition self : GenericAPIView :=
  APIView "zds.mp.api.views.PrivateTopicDetailAPI"
    permission_classes DEFAULT_FILTER_BACKENDS [] []
    get_current_user get_serializer_class get_queryset.

Definition get : Handler :=
  {| handler_name := "get";
     decorators := [etag obj_key_func; cache_response obj_key_func];
     body_of := λ request, generics.retrieve self request |}.

Definition put : Handler :=
  plain "put" (λ request, generics.update false self request).

Definition delete : Handler :=
  plain "delete" (λ request, generics.destroy self request).

Definition cls : ViewClass :=
  {| view := self;
     handlers := {[ "GET" := get; "PUT" := put; "DELETE" := delete ]}
                 ∪ generics.RetrieveUpdateDestroyAPIView self |}.

End PrivateTopicDetailAPI.
End PrivateTopicDetailAPI.

(** * A sample deployment

    Concrete collaborators and settings, to run the views on concrete
    requests: topics with an author and participants, a manager that
    keeps the topics a member writes or takes part in, a Bearer scheme,
    no default filter backend and a single page. *)
Module Sample.

Record Topic := {
  topic_pk : Z;
  title : string;
  author : Z;
  participants : list Z
}.

#[global] Instance Topic_eq_dec : EqDecision Topic.
Proof. solve_decision. Defined.

Definition belongs (u : Z) (t : Topic) : bool :=
  bool_decide (author t = u ∨ u ∈ participants t).

Definition of_user (uid : option Z) (d : list Topic) : list Topic :=
  match uid with
  | Some u => filter (λ t, belongs u t) d
  | None => []
  end.

Definition parse_pk (s : string) : option Z :=
  Z.of_int <$> DecimalString.NilZero.int_of_string s.

Definition selected (uid : option Z) (pks : list string) (d : list Topic) :
    list Topic :=
  filter (λ t, topic_pk t ∈ omap parse_pk pks) (of_user uid d).

Definition replace_topic (t : Topic) (d : list Topic) : list Topic :=
  (λ t', if decide (topic_pk t' = topic_pk t) then t else t') <$> d.

(** Leaving a topic: the last member deletes it, the author hands it to
    the first participant, a participant is taken off the list. *)
Definition leave_topic (u : User) (t : Topic) (d : list Topic) : list Topic :=
  match participants t with
  | [] => filter (λ t', topic_pk t' ≠ topic_pk t) d
  | p :: ps =>
      if decide (user_id u = Some (author t)) then
        replace_topic {| topic_pk := topic_pk t; title := title t;
                         author := p; participants := ps |} d
      else
        replace_topic {| topic_pk := topic_pk t; title := title t;
                         author := author t;
                         participants :=
                           filter (λ x, Some x ≠ user_id u) (participants t) |} d
  end.

Definition represent (t : Topic) : list (string * string) :=
  [("id", pretty (topic_pk t)); ("title", title t)].

Definition next_pk (d : list Topic) : Z :=
  1 + foldr Z.max 0%Z (topic_pk <$> d).

Definition create_topic (u : User) (form : QueryDict) (d : list Topic) :
    list (string * string) + Topic * list Topic :=
  match user_id u, getlast "title" form with
  | Some a, Some ti =>
      let t := {| topic_pk := next_pk d; title := ti; author := a;
                  participants := omap parse_pk (getlist "participants" form) |} in
      inr (t, (d ++ [t])%list)
  | _, _ => inl [("title", "required")]
  end.

Definition update_topic (t : Topic) (form : QueryDict) (d : list Topic) :
    list (string * string) + Topic * list Topic :=
  let t' := {| topic_pk := topic_pk t;
               title := default (title t) (getlast "title" form);
               author := author t; participants := participants t |} in
  inr (t', replace_topic t' d).

Definition collaborators : Collaborators :=
  {| PrivateTopic := Topic;
     Database := list Topic;
     Data := list (string * string);
     pk := topic_pk;
     objects_all := λ d, d;
     private_topics_of_user := of_user;
     private_topics_selected := selected;
     leave := leave_topic;
     is_participant := λ u t,
       match user_id u with Some i => belongs i t | None => false end;
     to_representation := λ _ t, represent t;
     serializer_create := λ _ u form d, create_topic u form d;
     serializer_update := λ _ _ t _ form d, update_topic t form d |}.

Definition framework : @Framework collaborators :=
  {| authenticate_header := Some "Bearer";
     DEFAULT_FILTER_BACKENDS := [];
     pagination_params := ["page"; "page_size"];
     DefaultKeyConstructor :=
       {[ "unique_method_id" := bits.UniqueMethodIdKeyBit;
          "format" := bits.FormatKeyBit;
          "language" := bits.LanguageKeyBit ]};
     backend_filter := λ _ _ _ _ l, l;
     paginate_queryset := λ _ l, Some l |}.

Definition request (m : string) (c : Credentials) (form : QueryDict)
    (url_pk : option Z) : Request :=
  {| method := m; credentials := c; data := form; query_params := [];
     kwargs := match url_pk with Some v => {[ "pk" := v ]} | None => ∅ end;
     accepted_format := "json"; language := "fr"; if_none_match := [] |}.

(** Three topics: member 1 writes the first with member 2 and the third
    alone; the second is between members 3 and 4. *)
Definition topic1 : Topic :=
  {| topic_pk := 1; title := "Relecture"; author := 1; participants := [2%Z] |}.
Definition topic2 : Topic :=
  {| topic_pk := 2; title := "Projet"; author := 3; participants := [4%Z] |}.
Definition topic3 : Topic :=
  {| topic_pk := 3; title := "Notes"; author := 1; participants := [] |}.

Definition db0 : list Topic := [topic1; topic2; topic3].

Definition st0 : @State collaborators := @Build_State collaborators db0 [].

(** Member 1 deletes topics 1 and 3 in one request to the list endpoint. *)
Definition bulk_delete : Request :=
  request "DELETE" (Valid 1) [("pk", "1"); ("pk", "3")] None.

(** Member 1 names only the topic of members 3 and 4, then no topic that
    exists, then nothing. *)
Definition delete_foreign : Request :=
  request "DELETE" (Valid 1) [("pk", "2")] None.
Definition delete_unknown : Request :=
  request "DELETE" (Valid 1) [("pk", "99")] None.
Definition delete_nothing : Request :=
  request "DELETE" (Valid 1) [] None.

(** Member 1 reads topic 1; member 3, who is not in it, asks for it too. *)
Definition read : Request := request "GET" (Valid 1) [] (Some 1%Z).
Definition peek : Request := request "GET" (Valid 3) [] (Some 1%Z).

(** A request without credentials. *)
Definition anonymous : Request := request "DELETE" Missing [("pk", "1")] None.


(** Member 3 tries to rename, and to leave, topic 1; member 1 asks for a
    topic that does not exist. *)
Definition rename3 : Request :=
  request "PUT" (Valid 3) [("title", "x")] (Some 1%Z).
Definition missing_topic : Request := request "DELETE" (Valid 1) [] (Some 9%Z).

(** Member 2 renames topic 1, patches it, and leaves it. *)
Definition rename : Request :=
  request "PUT" (Valid 2) [("title", "Relu")] (Some 1%Z).
Definition patch : Request :=
  request "PATCH" (Valid 2) [("title", "Relu")] (Some 1%Z).
Definition leave1 : Request := request "DELETE" (Valid 2) [] (Some 1%Z).

(** Member 2 opens a topic with member 4, and forgets the title. *)
Definition open_topic : Request :=
  request "POST" (Valid 2) [("title", "Sortie"); ("participants", "4")] None.
Definition open_untitled : Request :=
  request "POST" (Valid 2) [("participants", "4")] None.

(** Member 2 leaves topic 1 through the list endpoint. *)
Definition delete1 : Request := request "DELETE" (Valid 2) [("pk", "1")] None.

(** Member 1 puts to the list endpoint. *)
Definition put_list : Request := request "PUT" (Valid 1) [("title", "x")] None.

(** Member 3 asks for topic 1 again, with the key of that request in
    [If-None-Match]. *)
Definition revalidate : Request :=
  {| method := "GET"; credentials := Valid 3; data := []; query_params := [];
     kwargs := {[ "pk" := 1%Z ]}; accepted_format := "json"; language := "fr";
     if_none_match :=
       [default ∅
          (@calculate_key _ framework
             (@PrivateTopicDetailAPI.obj_key_func _ framework)
             (@PrivateTopicDetailAPI.self _ framework) "get"
             peek)] |}.

End Sample.

(** ** What a computation leaves alone *)
Section Frames.
Context `{Fw : Framework}.

(** The computation ends with the database it started with. *)
Definition keeps_db {A} (m : M A) : Prop := ∀ st, db (m st).2 = db st.

(** The computation ends with the cache it started with. *)
Definition keeps_cache {A} (m : M A) : Prop := ∀ st, cache (m st).2 = cache st.

End Frames.

(** * What the handlers do *)
Section Handlers.
Context `{Fw : Framework}.

Lemma state_eta (st : State) : {| db := db st; cache := cache st |} = st.
Proof. by destruct st. Qed.

(** The loop of the bulk delete: [perform_destroy] on every topic in
    turn, each on the database the previous one left. *)
Lemma for_each_perform_destroy (self : GenericAPIView) (request : Request)
    (topics : list PrivateTopic) (st : State) :
  for_each topics (λ topic, perform_destroy self request topic) st =
  (inr tt,
   {| db := foldl (λ d topic, leave (get_current_user self request) topic d)
                  (db st) topics;
      cache := cache st |}).
Proof.
  revert st. induction topics as [|topic topics IH]; intros st; simpl.
  - by rewrite state_eta.
  - unfold bind at 1. unfold perform_destroy at 1, modify_db. by rewrite IH.
Qed.

(** The body of the bulk delete, run. *)
Lemma list_delete_body (request : Request) (st : State) :
  body_of PrivateTopicListAPI.delete request st
  = (inr (mkResponse status.HTTP_204_NO_CONTENT NoBody),
     {| db := foldl (λ d topic, leave (user request) topic d) (db st)
                (rows (PrivateTopicListAPI.get_queryset request) (db st));
        cache := cache st |}).
Proof.
  cbn [body_of PrivateTopicListAPI.delete plain].
  unfold bind at 1. unfold get_db. unfold bind at 1.
  by rewrite for_each_perform_destroy.
Qed.

(** C1 (amended).  Five of the six handler bodies are pass-throughs to
    the generic verb: GET and POST of the list view to [list] and
    [create], GET, PUT and DELETE of the detail view to [retrieve],
    [update] and [destroy].  The DELETE of the list view calls no generic
    verb: it calls [perform_destroy] on every topic of [get_queryset], in
    order, and returns an empty 204. *)
Theorem handler_bodies (request : Request) (st : State) :
  body_of PrivateTopicListAPI.get request st
    = generics.list PrivateTopicListAPI.self request st
  ∧ body_of PrivateTopicListAPI.post request st
    = generics.create PrivateTopicListAPI.self request st
  ∧ body_of PrivateTopicDetailAPI.get request st
    = generics.retrieve PrivateTopicDetailAPI.self request st
  ∧ body_of PrivateTopicDetailAPI.put request st
    = generics.update false PrivateTopicDetailAPI.self request st
  ∧ body_of PrivateTopicDetailAPI.delete request st
    = generics.destroy PrivateTopicDetailAPI.self request st
  ∧ body_of PrivateTopicListAPI.delete request st
    = (inr (mkResponse status.HTTP_204_NO_CONTENT NoBody),
       {| db := foldl (λ d topic, leave (user request) topic d) (db st)
                  (rows (PrivateTopicListAPI.get_queryset request) (db st));
          cache := cache st |}).
Proof.
  repeat split; try reflexivity. apply list_delete_body.
Qed.


End Handlers.

(** * Dispatch: who gets through, and the bulk delete *)
Section Dispatch.
Context `{Fw : Framework}.

Ltac table_lookup :=
  repeat case_decide; simplify_map_eq; try done;
  rewrite ?lookup_union_None; repeat split; by simplify_map_eq.

(** The handlers of the two classes, those of the file over the inherited
    ones: the list view overrides all it inherits, the detail view keeps
    [patch]. *)
Lemma list_handlers (m : string) :
  handlers PrivateTopicListAPI.cls !! m =
  if decide (m = "GET") then Some PrivateTopicListAPI.get
  else if decide (m = "POST") then Some PrivateTopicListAPI.post
  else if decide (m = "DELETE") then Some PrivateTopicListAPI.delete
  else None.
Proof.
  cbn [handlers PrivateTopicListAPI.cls].
  unfold generics.ListCreateAPIView, generics.DestroyAPIView.
  table_lookup.
Qed.

Lemma detail_handlers (m : string) :
  handlers PrivateTopicDetailAPI.cls !! m =
  if decide (m = "GET") then Some PrivateTopicDetailAPI.get
  else if decide (m = "PUT") then Some PrivateTopicDetailAPI.put
  else if decide (m = "DELETE") then Some PrivateTopicDetailAPI.delete
  else if decide (m = "PATCH")
       then Some (plain "patch" (generics.update true PrivateTopicDetailAPI.self))
  else None.
Proof.
  cbn [handlers PrivateTopicDetailAPI.cls].
  unfold generics.RetrieveUpdateDestroyAPIView.
  table_lookup.
Qed.

(** A member passes [initial] on the list view. *)
Lemma list_initial_member (request : Request) (st : State) (i : Z) :
  credentials request = Valid i →
  initial PrivateTopicListAPI.self request st = (inr tt, st).
Proof.
  intros Hc. unfold initial, perform_authentication, check_permissions, bind.
  rewrite Hc. cbn. unfold user. by rewrite Hc.
Qed.

(** C3.  [IsAuthenticated] is among the permission classes of both views,
    and a request without valid authentication (no credentials, or
    refused ones) is answered 401 with the challenge of the authentication
    scheme, before the handler is looked up: whatever the handlers are,
    the answer is the same and the state is left as it was.  The scheme is
    one that has a challenge, as the Bearer tokens the docstrings ask
    for. *)
Theorem unauthenticated_requests_get_401 (cls : ViewClass)
    (hs : gmap string Handler) (request : Request) (st : State)
    (challenge : string) :
  cls = PrivateTopicListAPI.cls ∨ cls = PrivateTopicDetailAPI.cls →
  authenticate_header = Some challenge →
  is_authenticated (user request) = false →
  IsAuthenticated ∈ permission_classes (view cls)
  ∧ dispatch cls request st = (unauthorized challenge, st)
  ∧ dispatch {| view := view cls; handlers := hs |} request st
    = (unauthorized challenge, st).
Proof.
  intros Hcls Hh Huser.
  assert (Hin : IsAuthenticated ∈ permission_classes (view cls)).
  { destruct Hcls as [-> | ->]; cbn;
      unfold PrivateTopicListAPI.permission_classes,
             PrivateTopicDetailAPI.permission_classes; constructor. }
  assert (Hinit : initial (view cls) request st = (inl NotAuthenticated, st)
                  ∨ initial (view cls) request st
                    = (inl AuthenticationFailed, st)).
  { unfold initial, perform_authentication, check_permissions, bind.
    unfold user in Huser.
    destruct (credentials request) eqn:Hc; [done | left | right; done].
    destruct Hcls as [-> | ->]; cbn; unfold user, permission_denied;
      by rewrite Hc. }
  split; [done|].
  unfold dispatch, bind; cbn [view].
  destruct Hinit as [-> | ->]; cbn; by rewrite Hh.
Qed.


End Dispatch.

(** * What the views leave to others *)
Section Delegation.
Context `{Fw : Framework}.


(** C6.  The list view names the two filter backends, one search field
    and three ordering fields, and nothing else of searching, ordering or
    paging.  The queryset its GET runs is its own [get_queryset] wrapped
    by the two backends, and the topics of the answer are what the
    paginator keeps of that; the bulk delete takes [get_queryset] as it
    is. *)
Theorem search_ordering_pagination_are_delegated (request : Request)
    (st : State) :
  filter_backends PrivateTopicListAPI.self
    = [filters.SearchFilter; filters.OrderingFilter]
  ∧ search_fields PrivateTopicListAPI.self = ["title"]
  ∧ ordering_fields PrivateTopicListAPI.self
    = ["pubdate"; "last_message"; "title"]
  ∧ filter_queryset PrivateTopicListAPI.self request
      (get_queryset PrivateTopicListAPI.self request)
    = objects.filtered filters.OrderingFilter ["title"]
        ["pubdate"; "last_message"; "title"] (query_params request)
        (objects.filtered filters.SearchFilter ["title"]
           ["pubdate"; "last_message"; "title"] (query_params request)
           (PrivateTopicListAPI.get_queryset request))
  ∧ body_of PrivateTopicListAPI.get request st
    = match paginate_queryset (query_params request)
              (rows (filter_queryset PrivateTopicListAPI.self request
                       (get_queryset PrivateTopicListAPI.self request))
                    (db st)) with
      | None => (inl Http404, st)
      | Some page =>
          match PrivateTopicListAPI.get_serializer_class request with
          | None => (inl (Uncaught "TypeError"), st)
          | Some c =>
              (inr (mkResponse status.HTTP_200_OK
                      (Many (to_representation c <$> page))), st)
          end
      end
  ∧ body_of PrivateTopicListAPI.delete request st
    = (inr (mkResponse status.HTTP_204_NO_CONTENT NoBody),
       {| db := foldl (λ d topic, leave (user request) topic d) (db st)
                  (rows (PrivateTopicListAPI.get_queryset request) (db st));
          cache := cache st |}).
Proof.
  repeat split; try reflexivity; [|apply list_delete_body].
  cbn [body_of PrivateTopicListAPI.get].
  unfold generics.list, get_serializer, bind, get_db.
  destruct (paginate_queryset _ _) as [page|]; [|done].
  cbn [get_serializer_class PrivateTopicListAPI.self].
  by destruct (PrivateTopicListAPI.get_serializer_class request).
Qed.

(** C10.  [get_serializer_class] answers for two methods in each view and
    falls through to [None] for every other one: GET and POST in the list
    view, GET and PUT in the detail view.  For DELETE both return [None],
    so the bulk delete of the list view has no serializer class. *)
Theorem get_serializer_class_is_partial (request : Request)
    (c : SerializerClass) :
  (get_serializer_class PrivateTopicListAPI.self request = Some c
   ↔ (method request = "GET" ∧ c = PrivateTopicSerializer)
     ∨ (method request = "POST" ∧ c = PrivateTopicCreateSerializer))
  ∧ (get_serializer_class PrivateTopicListAPI.self request = None
     ↔ method request ≠ "GET" ∧ method request ≠ "POST")
  ∧ (get_serializer_class PrivateTopicDetailAPI.self request = Some c
     ↔ (method request = "GET" ∧ c = PrivateTopicSerializer)
       ∨ (method request = "PUT" ∧ c = PrivateTopicUpdateSerializer))
  ∧ (get_serializer_class PrivateTopicDetailAPI.self request = None
     ↔ method request ≠ "GET" ∧ method request ≠ "PUT")
  ∧ (method request = "DELETE"
     → get_serializer_class PrivateTopicListAPI.self request = None
       ∧ get_serializer_class PrivateTopicDetailAPI.self request = None).
Proof.
  cbn [get_serializer_class PrivateTopicListAPI.self PrivateTopicDetailAPI.self].
  unfold PrivateTopicListAPI.get_serializer_class,
         PrivateTopicDetailAPI.get_serializer_class.
  repeat split; repeat case_decide; intuition congruence.
Qed.

End Delegation.

(** * Keys, the cache and the ETag *)
Section Keys.
Context `{Fw : Framework}.


(** Requests on which every bit reads the same data get the same key. *)
Lemma calculate_key_ext (key_func : KeyConstructor) (self : GenericAPIView)
    (name : string) (r1 r2 : Request) :
  (∀ n b, key_func !! n = Some b →
          bit_data b self name r1 = bit_data b self name r2) →
  calculate_key key_func self name r1 = calculate_key key_func self name r2.
Proof.
  intros Hbits. unfold calculate_key.
  assert (Hm : (λ b, bit_data b self name r1) <$> key_func
               = (λ b, bit_data b self name r2) <$> key_func).
  { apply map_eq. intros n. rewrite !lookup_fmap.
    destruct (key_func !! n) as [b|] eqn:Hn; [|done]. cbn. f_equal. eauto. }
  by rewrite Hm.
Qed.


Lemma cache_get_set (k : Key) (r : Response) (c : list (Key * Response)) :
  cache_get k (cache_set k r c) = Some r.
Proof. unfold cache_set; cbn. by rewrite decide_True. Qed.

(** [etag] over [cache_response] with one key constructor: when the
    method returns, either [If-None-Match] named the key, or the response
    is the cache entry of the key, tagged with the key. *)
Lemma etag_over_cache_response (key_func : KeyConstructor)
    (self : GenericAPIView) (name : string) (body : Request → M Response)
    (request : Request) (st st' : State) (r : Response) :
  decorate (etag key_func) self name
    (decorate (cache_response key_func) self name body) request st
  = (inr r, st') →
  ∃ k, calculate_key key_func self name request = Some k
       ∧ if decide (k ∈ if_none_match request)
         then etag_header r = Some k ∧ st' = st
         else ∃ r0, cache_get k (cache st') = Some r0 ∧ r = set_etag k r0.
Proof.
  unfold decorate.
  destruct (calculate_key key_func self name request) as [k|]; [|done].
  intros Hrun. exists k. split; [done|].
  case_decide as Hinm.
  - by injection Hrun as <- <-.
  - unfold bind at 1 in Hrun. unfold bind at 1, get_cache in Hrun.
    destruct (cache_get k (cache st)) as [r0|] eqn:Hhit.
    + injection Hrun as <- <-. eauto.
    + unfold bind at 1 in Hrun.
      destruct (body request st) as [[e | r0] st1]; [done|].
      cbv [bind modify_cache ret] in Hrun. injection Hrun as <- <-.
      exists r0. cbn [cache]. by rewrite cache_get_set.
Qed.

(** C7.  In each view the GET handler, and no other handler, is wrapped:
    by [etag] and by [cache_response], both given the one key constructor
    instance of the view.  So the two use one key: when GET returns, the
    key [k] of the request is defined, and either [If-None-Match] named
    [k], and the answer is tagged [k] and nothing was run, or the answer
    is the entry the cache now holds under [k], tagged [k]. *)
Theorem get_is_tagged_and_cached_under_one_key (cls : ViewClass)
    (key_func : KeyConstructor) :
  (cls = PrivateTopicListAPI.cls ∧ key_func = PrivateTopicListAPI.list_key_func)
  ∨ (cls = PrivateTopicDetailAPI.cls
     ∧ key_func = PrivateTopicDetailAPI.obj_key_func) →
  (∀ m h, handlers cls !! m = Some h →
          decorators h = if decide (m = "GET")
                         then [etag key_func; cache_response key_func]
                         else [])
  ∧ (∀ h request st r st',
       handlers cls !! "GET" = Some h →
       run_handler (view cls) h request st = (inr r, st') →
       ∃ k, calculate_key key_func (view cls) "get" request = Some k
            ∧ if decide (k ∈ if_none_match request)
              then etag_header r = Some k ∧ st' = st
              else ∃ r0, cache_get k (cache st') = Some r0
                         ∧ r = set_etag k r0).
Proof.
  intros [[-> ->] | [-> ->]]; split.
  - intros m h. rewrite list_handlers.
    repeat case_decide; by intros [= <-].
  - intros h request st r st'. rewrite list_handlers.
    intros [= <-]. apply etag_over_cache_response.
  - intros m h. rewrite detail_handlers.
    repeat case_decide; by intros [= <-].
  - intros h request st r st'. rewrite detail_handlers.
    intros [= <-]. apply etag_over_cache_response.
Qed.

End Keys.

(** * The detail view: 404, 403, and the cache *)
Section Detail.
Context `{Fw : Framework}.

(** A member passes [initial] on the detail view: [IsParticipant] does
    not decide there. *)
Lemma detail_initial_member (request : Request) (st : State) (i : Z) :
  credentials request = Valid i →
  initial PrivateTopicDetailAPI.self request st = (inr tt, st).
Proof.
  intros Hc. unfold initial, perform_authentication, check_permissions, bind.
  rewrite Hc. cbn. unfold user. by rewrite Hc.
Qed.

(** The lookup of the detail view, for a member: 404 when no topic of the
    table has the [pk] of the URL, 403 when one has and the member is not
    in it. *)
Lemma detail_get_object (request : Request) (st : State) (i v : Z) :
  credentials request = Valid i →
  kwargs request !! "pk" = Some v →
  get_object PrivateTopicDetailAPI.self request st =
  match rows (objects.lookup_pk v
                (filter_queryset PrivateTopicDetailAPI.self request objects.all))
             (db st) with
  | [] => (inl Http404, st)
  | [obj] => if is_participant (Member i) obj then (inr obj, st)
             else (inl PermissionDenied, st)
  | _ :: _ :: _ => (inl (Uncaught "MultipleObjectsReturned"), st)
  end.
Proof.
  intros Hc Hpk. unfold get_object. rewrite Hpk.
  unfold bind at 1, get_db.
  cbn [get_queryset PrivateTopicDetailAPI.self].
  unfold PrivateTopicDetailAPI.get_queryset, PrivateTopicDetailAPI.queryset.
  destruct (rows _ (db st)) as [|obj [|obj' more]]; [done | | done].
  unfold check_object_permissions, bind. cbn. unfold user. rewrite Hc.
  destruct (is_participant (Member i) obj); [done|].
  unfold permission_denied. by rewrite Hc.
Qed.

(** A raise of [get_object] is the raise of the verb that starts with it. *)
Lemma verbs_raise_with_get_object (self : GenericAPIView) (request : Request)
    (st st' : State) (e : APIException) (partial : bool) :
  get_object self request st = (inl e, st') →
  generics.retrieve self request st = (inl e, st')
  ∧ generics.update partial self request st = (inl e, st')
  ∧ generics.destroy self request st = (inl e, st').
Proof.
  intros Hobj.
  repeat split;
    unfold generics.retrieve, generics.update, generics.destroy, bind;
    by rewrite Hobj.
Qed.

(** On the detail view the raise of [get_object] is the answer to PUT
    and to DELETE, and to a GET that the decorators pass on to the method:
    one whose key is neither named by [If-None-Match] nor in the cache. *)
Lemma detail_raise_of_get_object (request : Request) (st : State) (i : Z)
    (e : APIException) :
  credentials request = Valid i →
  get_object PrivateTopicDetailAPI.self request st = (inl e, st) →
  method request = "PUT" ∨ method request = "DELETE"
  ∨ (method request = "GET"
     ∧ ∃ k, calculate_key PrivateTopicDetailAPI.obj_key_func
              PrivateTopicDetailAPI.self "get" request = Some k
            ∧ (k ∉ if_none_match request)
            ∧ cache_get k (cache st) = None) →
  dispatch PrivateTopicDetailAPI.cls request st = (handle_exception e, st).
Proof.
  intros Hc Hobj Hm.
  destruct (verbs_raise_with_get_object _ _ _ _ _ false Hobj)
    as (Hretrieve & Hupdate & Hdestroy).
  unfold dispatch. unfold bind at 1. cbn [view PrivateTopicDetailAPI.cls].
  rewrite (detail_initial_member _ _ i Hc), detail_handlers.
  destruct Hm as [-> | [-> | [-> (k & Hk & Hinm & Hmiss)]]];
    repeat case_decide; try done; unfold run_handler;
    cbn [decorators handler_name body_of PrivateTopicDetailAPI.put
         PrivateTopicDetailAPI.delete PrivateTopicDetailAPI.get plain foldr].
  - by rewrite Hupdate.
  - by rewrite Hdestroy.
  - unfold decorate. rewrite Hk. rewrite decide_False by done.
    unfold bind at 1. unfold bind at 1, get_cache. rewrite Hmiss.
    unfold bind at 1. by rewrite Hretrieve.
Qed.

(** X6.  Where the method runs (PUT, DELETE, and a GET that neither the
    cache nor [If-None-Match] answers), a member who is not in the topic is
    answered 403 and the state is left as it was. *)
Lemma detail_refuses_non_participant (request : Request) (st : State)
    (i v : Z) (obj : PrivateTopic) :
  credentials request = Valid i →
  kwargs request !! "pk" = Some v →
  rows (objects.lookup_pk v
          (filter_queryset PrivateTopicDetailAPI.self request objects.all))
       (db st) = [obj] →
  is_participant (Member i) obj = false →
  method request = "PUT" ∨ method request = "DELETE"
  ∨ (method request = "GET"
     ∧ ∃ k, calculate_key PrivateTopicDetailAPI.obj_key_func
              PrivateTopicDetailAPI.self "get" request = Some k
            ∧ (k ∉ if_none_match request)
            ∧ cache_get k (cache st) = None) →
  dispatch PrivateTopicDetailAPI.cls request st
  = (mkResponse status.HTTP_403_FORBIDDEN NoBody, st).
Proof.
  intros Hc Hpk Hrows Hout Hm.
  apply (detail_raise_of_get_object request st i PermissionDenied Hc); [|done].
  rewrite (detail_get_object request st i v Hc Hpk), Hrows. by rewrite Hout.
Qed.

(** X7.  Where the method runs, a [pk] that no topic has is answered 404,
    and the state is left as it was. *)
Lemma detail_unknown_is_404 (request : Request) (st : State) (i v : Z) :
  credentials request = Valid i →
  kwargs request !! "pk" = Some v →
  rows (objects.lookup_pk v
          (filter_queryset PrivateTopicDetailAPI.self request objects.all))
       (db st) = [] →
  method request = "PUT" ∨ method request = "DELETE"
  ∨ (method request = "GET"
     ∧ ∃ k, calculate_key PrivateTopicDetailAPI.obj_key_func
              PrivateTopicDetailAPI.self "get" request = Some k
            ∧ (k ∉ if_none_match request)
            ∧ cache_get k (cache st) = None) →
  dispatch PrivateTopicDetailAPI.cls request st
  = (mkResponse status.HTTP_404_NOT_FOUND NoBody, st).
Proof.
  intros Hc Hpk Hrows Hm.
  apply (detail_raise_of_get_object request st i Http404 Hc); [|done].
  by rewrite (detail_get_object request st i v Hc Hpk), Hrows.
Qed.

End Detail.

(** * The response cache of the detail view does not know the user *)
Section Leak.
Context `{Fw : Framework}.

(** No exception is answered 200. *)
Lemma handle_exception_not_200 (e : APIException) :
  status_code (handle_exception e) ≠ status.HTTP_200_OK.
Proof.
  destruct e; cbn; try discriminate; by destruct authenticate_header.
Qed.

(** None of the bits reads the credentials, and the queryset of the
    detail view does not either: requests for the same URL, format and
    language have the same key, whoever sends them. *)
Lemma detail_key_ignores_the_user (key_func : KeyConstructor) (name : string)
    (r1 r2 : Request) :
  query_params r1 = query_params r2 →
  kwargs r1 = kwargs r2 →
  accepted_format r1 = accepted_format r2 →
  language r1 = language r2 →
  calculate_key key_func PrivateTopicDetailAPI.self name r1
  = calculate_key key_func PrivateTopicDetailAPI.self name r2.
Proof.
  intros Hq Hk Hf Hl. apply calculate_key_ext. intros n b _.
  destruct b; cbn; unfold filter_queryset; cbn; by rewrite ?Hq, ?Hk, ?Hf, ?Hl.
Qed.

(** A GET of a member whose key is in the cache is answered from the
    cache: neither the lookup nor [IsParticipant] takes part. *)
Lemma detail_get_hit (request : Request) (st : State) (i : Z) (k : Key)
    (r : Response) :
  credentials request = Valid i →
  method request = "GET" →
  calculate_key PrivateTopicDetailAPI.obj_key_func PrivateTopicDetailAPI.self
    "get" request = Some k →
  k ∉ if_none_match request →
  cache_get k (cache st) = Some r →
  dispatch PrivateTopicDetailAPI.cls request st = (set_etag k r, st).
Proof.
  intros Hc Hm Hk Hinm Hhit.
  unfold dispatch. unfold bind at 1. cbn [view PrivateTopicDetailAPI.cls].
  rewrite (detail_initial_member _ _ i Hc), detail_handlers, Hm.
  rewrite decide_True by done. unfold run_handler.
  cbn [decorators handler_name body_of PrivateTopicDetailAPI.get foldr].
  unfold decorate. rewrite Hk, decide_False by done.
  unfold bind at 1. unfold bind at 1, get_cache. by rewrite Hhit.
Qed.

(** A GET of a member whose key is not in the cache runs [retrieve] and
    stores what it returns. *)
Lemma detail_get_miss (request : Request) (st : State) (i : Z) (k : Key) :
  credentials request = Valid i →
  method request = "GET" →
  calculate_key PrivateTopicDetailAPI.obj_key_func PrivateTopicDetailAPI.self
    "get" request = Some k →
  k ∉ if_none_match request →
  cache_get k (cache st) = None →
  dispatch PrivateTopicDetailAPI.cls request st =
  match generics.retrieve PrivateTopicDetailAPI.self request st with
  | (inr r0, st') =>
      (set_etag k r0, {| db := db st'; cache := cache_set k r0 (cache st') |})
  | (inl e, st') => (handle_exception e, st')
  end.
Proof.
  intros Hc Hm Hk Hinm Hmiss.
  unfold dispatch. unfold bind at 1. cbn [view PrivateTopicDetailAPI.cls].
  rewrite (detail_initial_member _ _ i Hc), detail_handlers, Hm.
  rewrite decide_True by done. unfold run_handler.
  cbn [decorators handler_name body_of PrivateTopicDetailAPI.get foldr].
  unfold decorate. rewrite Hk, decide_False by done.
  unfold bind at 1. unfold bind at 1, get_cache. rewrite Hmiss.
  unfold bind at 1.
  by destruct (generics.retrieve _ _ _) as [[e | r0] st'].
Qed.

(** X4.  So the 200 one member got on a cold cache is the answer to the
    same GET (same URL, query parameters, format and language) of any
    other member afterwards, whether that member is in the topic or not. *)
Lemma detail_answer_is_shared (r1 r2 : Request) (st st1 : State) (i j : Z)
    (k : Key) (response : Response) :
  credentials r1 = Valid i → credentials r2 = Valid j →
  method r1 = "GET" → method r2 = "GET" →
  query_params r1 = query_params r2 →
  kwargs r1 = kwargs r2 →
  accepted_format r1 = accepted_format r2 →
  language r1 = language r2 →
  if_none_match r1 = [] → if_none_match r2 = [] →
  calculate_key PrivateTopicDetailAPI.obj_key_func PrivateTopicDetailAPI.self
    "get" r1 = Some k →
  cache_get k (cache st) = None →
  dispatch PrivateTopicDetailAPI.cls r1 st = (response, st1) →
  status_code response = status.HTTP_200_OK →
  dispatch PrivateTopicDetailAPI.cls r2 st1 = (response, st1).
Proof.
  intros Hc1 Hc2 Hm1 Hm2 Hq Hkw Hf Hl Hinm1 Hinm2 Hk Hmiss Hrun Hok.
  rewrite (detail_get_miss r1 st i k) in Hrun; try done;
    [|rewrite Hinm1; apply not_elem_of_nil].
  destruct (generics.retrieve _ r1 st) as [[e | r0] st'].
  - injection Hrun as <- <-. by destruct (handle_exception_not_200 e).
  - injection Hrun as <- <-.
    apply (detail_get_hit r2 _ j k r0); try done.
    + by rewrite <- (detail_key_ignores_the_user _ _ r1 r2).
    + rewrite Hinm2. apply not_elem_of_nil.
    + cbn [cache]. apply cache_get_set.
Qed.
End Leak.

(** * The views at work in the sample deployment *)
Section SampleRuns.
#[local] Existing Instance Sample.collaborators.
#[local] Existing Instance Sample.framework.

(** C1, as stated, fails for the DELETE of the list view.  Member 1
    names topics 1 and 3: the handler hands topic 1 over to member 2,
    deletes topic 3 and answers 204, where every generic verb, [destroy]
    first, raises on that request: there is no [pk] in the URL of the
    list endpoint, and no serializer class for DELETE. *)
Lemma list_delete_is_no_generic_verb :
  body_of PrivateTopicListAPI.delete Sample.bulk_delete Sample.st0
  = (inr (mkResponse status.HTTP_204_NO_CONTENT NoBody),
     {| db := [ {| Sample.topic_pk := 1; Sample.title := "Relecture";
                   Sample.author := 2; Sample.participants := [] |};
                Sample.topic2 ];
        cache := [] |})
  ∧ generics.destroy PrivateTopicListAPI.self Sample.bulk_delete Sample.st0
    = (inl (Uncaught "AssertionError"), Sample.st0)
  ∧ generics.retrieve PrivateTopicListAPI.self Sample.bulk_delete Sample.st0
    = (inl (Uncaught "AssertionError"), Sample.st0)
  ∧ generics.update false PrivateTopicListAPI.self Sample.bulk_delete Sample.st0
    = (inl (Uncaught "AssertionError"), Sample.st0)
  ∧ generics.create PrivateTopicListAPI.self Sample.bulk_delete Sample.st0
    = (inl (Uncaught "TypeError"), Sample.st0)
  ∧ generics.list PrivateTopicListAPI.self Sample.bulk_delete Sample.st0
    = (inl (Uncaught "TypeError"), Sample.st0)
  ∧ body_of PrivateTopicListAPI.delete Sample.bulk_delete Sample.st0
    ≠ generics.destroy PrivateTopicListAPI.self Sample.bulk_delete Sample.st0.
Proof.
  repeat split; try (vm_compute; reflexivity).
  intros Heq. apply (f_equal fst) in Heq. vm_compute in Heq. discriminate.
Qed.


(** C3 at work: a DELETE without credentials on the list endpoint. *)
Lemma unauthenticated_requests_get_401_witness :
  is_authenticated (user Sample.anonymous) = false
  ∧ dispatch PrivateTopicListAPI.cls Sample.anonymous Sample.st0
    = (unauthorized "Bearer", Sample.st0).
Proof.
  split; [reflexivity|].
  apply (unauthenticated_requests_get_401 PrivateTopicListAPI.cls ∅
           Sample.anonymous Sample.st0 "Bearer");
    [left; reflexivity | reflexivity | reflexivity].
Defined.


(** C7 at work: the decorators of the GET of the detail view. *)
Lemma get_is_tagged_and_cached_under_one_key_witness :
  decorators PrivateTopicDetailAPI.get
  = [etag PrivateTopicDetailAPI.obj_key_func;
     cache_response PrivateTopicDetailAPI.obj_key_func].
Proof.
  exact (proj1 (get_is_tagged_and_cached_under_one_key
                  PrivateTopicDetailAPI.cls PrivateTopicDetailAPI.obj_key_func
                  (or_intror (conj eq_refl eq_refl)))
           "GET" PrivateTopicDetailAPI.get eq_refl).
Defined.

(** In the sample, a DELETE that names a topic of other members, a topic
    that does not exist, or nothing, is answered 204 and changes nothing. *)
Lemma bulk_delete_of_nothing :
  dispatch PrivateTopicListAPI.cls Sample.delete_foreign Sample.st0
  = (mkResponse status.HTTP_204_NO_CONTENT NoBody, Sample.st0)
  ∧ dispatch PrivateTopicListAPI.cls Sample.delete_unknown Sample.st0
    = (mkResponse status.HTTP_204_NO_CONTENT NoBody, Sample.st0)
  ∧ dispatch PrivateTopicListAPI.cls Sample.delete_nothing Sample.st0
    = (mkResponse status.HTTP_204_NO_CONTENT NoBody, Sample.st0).
Proof. repeat split; vm_compute; reflexivity. Qed.

(** C9, at the input where the code departs from it.  Member 3 is not in
    topic 1.  Asked on a cold cache, the detail view answers 403.  Once
    member 1 has read the topic, the same GET of member 3 is answered 200
    with the topic: the key of the response cache has no bit that reads
    the user, and a cache hit returns before [retrieve], so before
    [get_object] and the object permissions.  The PUT of member 3, which
    is not decorated, is still answered 403. *)
Theorem cached_topic_is_served_to_a_non_participant :
  is_participant (user Sample.peek) Sample.topic1 = false
  ∧ dispatch PrivateTopicDetailAPI.cls Sample.peek Sample.st0
    = (mkResponse status.HTTP_403_FORBIDDEN NoBody, Sample.st0)
  ∧ status_code
      (dispatch PrivateTopicDetailAPI.cls Sample.peek
         (dispatch PrivateTopicDetailAPI.cls Sample.read Sample.st0).2).1
    = status.HTTP_200_OK
  ∧ body
      (dispatch PrivateTopicDetailAPI.cls Sample.peek
         (dispatch PrivateTopicDetailAPI.cls Sample.read Sample.st0).2).1
    = One (Sample.represent Sample.topic1)
  ∧ (dispatch PrivateTopicDetailAPI.cls
       (Sample.request "PUT" (Valid 3) [("title", "x")] (Some 1%Z))
       (dispatch PrivateTopicDetailAPI.cls Sample.read Sample.st0).2).1
    = mkResponse status.HTTP_403_FORBIDDEN NoBody.
Proof. repeat split; vm_compute; reflexivity. Qed.
End SampleRuns.

(** * What the handlers leave alone *)
Section Framing.
Context `{Fw : Framework}.

(** Sequencing keeps what both parts keep. *)
Lemma keeps_db_bind {A B} (m : M A) (k : A → M B) :
  keeps_db m → (∀ a, keeps_db (k a)) → keeps_db (bind m k).
Proof.
  intros Hm Hk st. unfold bind. specialize (Hm st).
  destruct (m st) as [[e | a] st']; cbn in *; [done|].
  by rewrite Hk.
Qed.

Lemma keeps_cache_bind {A B} (m : M A) (k : A → M B) :
  keeps_cache m → (∀ a, keeps_cache (k a)) → keeps_cache (bind m k).
Proof.
  intros Hm Hk st. unfold bind. specialize (Hm st).
  destruct (m st) as [[e | a] st']; cbn in *; [done|].
  by rewrite Hk.
Qed.

(** The permission checks, authentication and the lookup read the state
    and leave it as it is. *)
Lemma keeps_db_check_all (test : Permission → bool) (ps : list Permission)
    (request : Request) : keeps_db (check_all test ps request).
Proof.
  induction ps as [|p ps IH]; cbn; [done|].
  destruct (test p); [done|]. unfold permission_denied.
  by destruct (credentials request).
Qed.

Lemma keeps_cache_check_all (test : Permission → bool) (ps : list Permission)
    (request : Request) : keeps_cache (check_all test ps request).
Proof.
  induction ps as [|p ps IH]; cbn; [done|].
  destruct (test p); [done|]. unfold permission_denied.
  by destruct (credentials request).
Qed.

Lemma keeps_db_initial (self : GenericAPIView) (request : Request) :
  keeps_db (initial self request).
Proof.
  apply keeps_db_bind; [|intros _; apply keeps_db_check_all].
  unfold perform_authentication. by destruct (credentials request).
Qed.

Lemma keeps_cache_initial (self : GenericAPIView) (request : Request) :
  keeps_cache (initial self request).
Proof.
  apply keeps_cache_bind; [|intros _; apply keeps_cache_check_all].
  unfold perform_authentication. by destruct (credentials request).
Qed.

Lemma keeps_db_get_object (self : GenericAPIView) (request : Request) :
  keeps_db (get_object self request).
Proof.
  unfold get_object. destruct (kwargs request !! "pk"); [|done].
  apply keeps_db_bind; [done|]. intros d.
  destruct (rows _ d) as [|obj [|obj' more]]; [done| |done].
  apply keeps_db_bind; [apply keeps_db_check_all | done].
Qed.

Lemma keeps_cache_get_object (self : GenericAPIView) (request : Request) :
  keeps_cache (get_object self request).
Proof.
  unfold get_object. destruct (kwargs request !! "pk"); [|done].
  apply keeps_cache_bind; [done|]. intros d.
  destruct (rows _ d) as [|obj [|obj' more]]; [done| |done].
  apply keeps_cache_bind; [apply keeps_cache_check_all | done].
Qed.

Lemma keeps_db_get_serializer (self : GenericAPIView) (request : Request) :
  keeps_db (get_serializer self request).
Proof. unfold get_serializer. by destruct (get_serializer_class _ _). Qed.

Lemma keeps_cache_get_serializer (self : GenericAPIView) (request : Request) :
  keeps_cache (get_serializer self request).
Proof. unfold get_serializer. by destruct (get_serializer_class _ _). Qed.

(** The two reading verbs leave the database alone; the three writing
    verbs leave the cache alone. *)
Lemma keeps_db_retrieve (self : GenericAPIView) (request : Request) :
  keeps_db (generics.retrieve self request).
Proof.
  apply keeps_db_bind; [apply keeps_db_get_object|]. intros obj.
  apply keeps_db_bind; [apply keeps_db_get_serializer | done].
Qed.

Lemma keeps_db_list (self : GenericAPIView) (request : Request) :
  keeps_db (generics.list self request).
Proof.
  apply keeps_db_bind; [done|]. intros d.
  destruct (paginate_queryset _ _); [|done].
  apply keeps_db_bind; [apply keeps_db_get_serializer | done].
Qed.

Lemma keeps_cache_create (self : GenericAPIView) (request : Request) :
  keeps_cache (generics.create self request).
Proof.
  apply keeps_cache_bind; [apply keeps_cache_get_serializer|]. intros c.
  apply keeps_cache_bind; [done|]. intros d.
  by destruct (serializer_create _ _ _ _) as [errors | [topic d']].
Qed.

Lemma keeps_cache_update (partial : bool) (self : GenericAPIView)
    (request : Request) : keeps_cache (generics.update partial self request).
Proof.
  apply keeps_cache_bind; [apply keeps_cache_get_object|]. intros obj.
  apply keeps_cache_bind; [apply keeps_cache_get_serializer|]. intros c.
  apply keeps_cache_bind; [done|]. intros d.
  by destruct (serializer_update _ _ _ _ _ _) as [errors | [topic d']].
Qed.

Lemma keeps_cache_destroy (self : GenericAPIView) (request : Request) :
  keeps_cache (generics.destroy self request).
Proof.
  apply keeps_cache_bind; [apply keeps_cache_get_object|]. intros obj.
  apply keeps_cache_bind; done.
Qed.

(** A decorator writes the cache only. *)
Lemma keeps_db_decorate (d : Decorator) (self : GenericAPIView)
    (name : string) (h : Request → M Response) (request : Request) :
  keeps_db (h request) → keeps_db (decorate d self name h request).
Proof.
  intros Hh. unfold decorate.
  destruct d as [key_func | key_func];
    destruct (calculate_key key_func self name request) as [k|]; try done.
  - case_decide; [done|]. apply keeps_db_bind; done.
  - apply keeps_db_bind; [done|]. intros c.
    destruct (cache_get k c); [done|].
    apply keeps_db_bind; [done|]. intros r. apply keeps_db_bind; done.
Qed.

End Framing.

(** * Reads, writes and the cache *)
Section Safety.
Context `{Fw : Framework}.

(** The state [dispatch] ends in is the one its computation ends in. *)
Lemma dispatch_state (cls : ViewClass) (request : Request) (st : State) :
  (dispatch cls request st).2
  = ((initial (view cls) request ;;
      match handlers cls !! method request with
      | Some h => run_handler (view cls) h request
      | None => raise MethodNotAllowed
      end) st).2.
Proof. unfold dispatch. by destruct (bind _ _ st) as [[e | r] st']. Qed.

(** A GET, answered from the cache or not, allowed or not, leaves the
    database as it is. *)
Lemma get_keeps_db (cls : ViewClass) (request : Request) (st : State) :
  cls = PrivateTopicListAPI.cls ∨ cls = PrivateTopicDetailAPI.cls →
  method request = "GET" →
  db (dispatch cls request st).2 = db st.
Proof.
  intros Hcls Hm. rewrite dispatch_state.
  apply keeps_db_bind; [apply keeps_db_initial|]. intros _.
  destruct Hcls as [-> | ->].
  - rewrite list_handlers, Hm, decide_True by done.
    unfold run_handler; cbn [decorators handler_name body_of
                             PrivateTopicListAPI.get foldr].
    do 2 apply keeps_db_decorate. apply keeps_db_list.
  - rewrite detail_handlers, Hm, decide_True by done.
    unfold run_handler; cbn [decorators handler_name body_of
                             PrivateTopicDetailAPI.get foldr].
    do 2 apply keeps_db_decorate. apply keeps_db_retrieve.
Qed.

(** The bulk delete leaves the cache as it is. *)
Lemma keeps_cache_list_delete (request : Request) :
  keeps_cache (body_of PrivateTopicListAPI.delete request).
Proof. intros st. by rewrite list_delete_body. Qed.

(** No request other than a GET writes the cache. *)
Lemma non_get_keeps_cache (cls : ViewClass) (request : Request) (st : State) :
  cls = PrivateTopicListAPI.cls ∨ cls = PrivateTopicDetailAPI.cls →
  method request ≠ "GET" →
  cache (dispatch cls request st).2 = cache st.
Proof.
  intros Hcls Hm. rewrite dispatch_state.
  apply keeps_cache_bind; [apply keeps_cache_initial|]. intros _.
  destruct Hcls as [-> | ->].
  - rewrite list_handlers. repeat case_decide; try done.
    + apply keeps_cache_create.
    + apply keeps_cache_list_delete.
  - rewrite detail_handlers. repeat case_decide; try done.
    + apply keeps_cache_update.
    + apply keeps_cache_destroy.
    + apply keeps_cache_update.
Qed.

(** X1.  On both views a GET never changes the database, whoever sends it
    and whatever the cache holds, and a request of any other method never
    changes the response cache: no handler that writes topics stores,
    removes or refreshes a cached answer. *)
Theorem reads_and_writes_are_apart (cls : ViewClass) (request : Request)
    (st : State) :
  cls = PrivateTopicListAPI.cls ∨ cls = PrivateTopicDetailAPI.cls →
  (method request = "GET" → db (dispatch cls request st).2 = db st)
  ∧ (method request ≠ "GET" → cache (dispatch cls request st).2 = cache st).
Proof.
  intros Hcls. split; intros Hm;
    [by apply get_keeps_db | by apply non_get_keeps_cache].
Qed.
End Safety.

(** * How long a cached answer lives, and whom it serves *)
Section CacheLife.
Context `{Fw : Framework}.

(** A member passes [initial] on both views. *)
Lemma member_initial (cls : ViewClass) (request : Request) (st : State) (i : Z) :
  cls = PrivateTopicListAPI.cls ∨ cls = PrivateTopicDetailAPI.cls →
  credentials request = Valid i →
  initial (view cls) request st = (inr tt, st).
Proof.
  intros [-> | ->] Hc;
    [by apply (list_initial_member _ _ i) | by apply (detail_initial_member _ _ i)].
Qed.

(** For a member, [dispatch] is the handler of the method. *)
Lemma member_dispatch (cls : ViewClass) (request : Request) (st : State)
    (i : Z) (h : Handler) :
  cls = PrivateTopicListAPI.cls ∨ cls = PrivateTopicDetailAPI.cls →
  credentials request = Valid i →
  handlers cls !! method request = Some h →
  dispatch cls request st
  = match run_handler (view cls) h request st with
    | (inr r, st') => (r, st')
    | (inl e, st') => (handle_exception e, st')
    end.
Proof.
  intros Hcls Hc Hh. unfold dispatch. unfold bind at 1.
  by rewrite (member_initial cls request st i Hcls Hc), Hh.
Qed.

(** The GET handler of either class. *)
Lemma get_handler (cls : ViewClass) (key_func : KeyConstructor) :
  (cls = PrivateTopicListAPI.cls ∧ key_func = PrivateTopicListAPI.list_key_func)
  ∨ (cls = PrivateTopicDetailAPI.cls
     ∧ key_func = PrivateTopicDetailAPI.obj_key_func) →
  ∃ b, handlers cls !! "GET"
       = Some {| handler_name := "get";
                 decorators := [etag key_func; cache_response key_func];
                 body_of := b |}.
Proof.
  intros [[-> ->] | [-> ->]];
    [rewrite list_handlers | rewrite detail_handlers]; eauto.
Qed.

(** A GET of a member whose key is in the cache is answered with the
    entry, and nothing else happens. *)
Lemma get_hit (cls : ViewClass) (key_func : KeyConstructor)
    (request : Request) (st : State) (i : Z) (k : Key) (r : Response) :
  (cls = PrivateTopicListAPI.cls ∧ key_func = PrivateTopicListAPI.list_key_func)
  ∨ (cls = PrivateTopicDetailAPI.cls
     ∧ key_func = PrivateTopicDetailAPI.obj_key_func) →
  credentials request = Valid i →
  method request = "GET" →
  calculate_key key_func (view cls) "get" request = Some k →
  k ∉ if_none_match request →
  cache_get k (cache st) = Some r →
  dispatch cls request st = (set_etag k r, st).
Proof.
  intros Hcls Hc Hm Hk Hinm Hhit.
  destruct (get_handler cls key_func Hcls) as [b Hget].
  assert (Hview : cls = PrivateTopicListAPI.cls
                  ∨ cls = PrivateTopicDetailAPI.cls)
    by (destruct Hcls as [[-> _] | [-> _]]; auto).
  rewrite <- Hm in Hget.
  rewrite (member_dispatch cls request st i _ Hview Hc Hget).
  unfold run_handler; cbn [decorators handler_name body_of foldr].
  unfold decorate. rewrite Hk, decide_False by done.
  unfold bind at 1. unfold bind at 1, get_cache. by rewrite Hhit.
Qed.

(** A GET of a member that is answered 200 leaves its answer in the
    cache, under the key of the request. *)
Lemma get_ok_is_cached (cls : ViewClass) (key_func : KeyConstructor)
    (request : Request) (st st1 : State) (i : Z) (response : Response) :
  (cls = PrivateTopicListAPI.cls ∧ key_func = PrivateTopicListAPI.list_key_func)
  ∨ (cls = PrivateTopicDetailAPI.cls
     ∧ key_func = PrivateTopicDetailAPI.obj_key_func) →
  credentials request = Valid i →
  method request = "GET" →
  dispatch cls request st = (response, st1) →
  status_code response = status.HTTP_200_OK →
  ∃ k r0, calculate_key key_func (view cls) "get" request = Some k
          ∧ (k ∉ if_none_match request)
          ∧ cache_get k (cache st1) = Some r0
          ∧ response = set_etag k r0.
Proof.
  intros Hcls Hc Hm Hrun Hok.
  destruct (get_handler cls key_func Hcls) as [b Hget].
  assert (Hview : cls = PrivateTopicListAPI.cls
                  ∨ cls = PrivateTopicDetailAPI.cls)
    by (destruct Hcls as [[-> _] | [-> _]]; auto).
  rewrite <- Hm in Hget.
  rewrite (member_dispatch cls request st i _ Hview Hc Hget) in Hrun.
  destruct (run_handler _ _ request st) as [[e | r] st'] eqn:Hh.
  { injection Hrun as <- <-. by destruct (handle_exception_not_200 e). }
  injection Hrun as <- <-.
  unfold run_handler in Hh; cbn [decorators handler_name body_of foldr] in Hh.
  destruct (etag_over_cache_response _ _ _ _ _ _ _ _ Hh) as (k & Hk & Hcase).
  exists k. case_decide as Hinm.
  - exfalso. unfold decorate in Hh. rewrite Hk, decide_True in Hh by done.
    injection Hh as <- <-. cbn in Hok. rewrite Hm in Hok.
    by rewrite decide_True in Hok by (unfold SAFE_METHODS; constructor).
  - destruct Hcase as (r0 & Hr0 & ->). eauto.
Qed.

(** X2.  Once a member's GET was answered 200, on either view, the same
    GET gets the same answer after any request of another method, by
    anyone: a topic renamed, left, deleted or created since does not show.
    (Entries do not expire here; the library drops them after its
    timeout.) *)
Theorem cached_answer_outlives_writes (cls : ViewClass)
    (reading writing : Request) (st st1 : State) (i : Z) (response : Response) :
  cls = PrivateTopicListAPI.cls ∨ cls = PrivateTopicDetailAPI.cls →
  credentials reading = Valid i →
  method reading = "GET" →
  method writing ≠ "GET" →
  dispatch cls reading st = (response, st1) →
  status_code response = status.HTTP_200_OK →
  dispatch cls reading (dispatch cls writing st1).2
  = (response, (dispatch cls writing st1).2).
Proof.
  intros Hcls Hc Hm Hw Hrun Hok.
  assert (Hk : ∃ key_func,
    (cls = PrivateTopicListAPI.cls ∧ key_func = PrivateTopicListAPI.list_key_func)
    ∨ (cls = PrivateTopicDetailAPI.cls
       ∧ key_func = PrivateTopicDetailAPI.obj_key_func)).
  { destruct Hcls as [-> | ->]; eauto. }
  destruct Hk as [key_func Hkey].
  destruct (get_ok_is_cached cls key_func reading st st1 i response
              Hkey Hc Hm Hrun Hok) as (k & r0 & Hk & Hinm & Hhit & ->).
  apply (get_hit cls key_func reading _ i k r0); try done.
  by rewrite non_get_keeps_cache.
Qed.



End CacheLife.

(** * What each request of a member comes to *)
Section Outcomes.
Context `{Fw : Framework}.

(** X5.  A GET of a member whose [If-None-Match] names the key of the
    request is answered 304 with that tag, on both views, and nothing is
    read or written: on the detail view neither the existence of the topic
    nor [IsParticipant] is consulted. *)
Theorem conditional_get_is_not_modified (cls : ViewClass)
    (key_func : KeyConstructor) (request : Request) (st : State) (i : Z)
    (k : Key) :
  (cls = PrivateTopicListAPI.cls ∧ key_func = PrivateTopicListAPI.list_key_func)
  ∨ (cls = PrivateTopicDetailAPI.cls
     ∧ key_func = PrivateTopicDetailAPI.obj_key_func) →
  credentials request = Valid i →
  method request = "GET" →
  calculate_key key_func (view cls) "get" request = Some k →
  k ∈ if_none_match request →
  dispatch cls request st
  = ({| status_code := status.HTTP_304_NOT_MODIFIED; body := NoBody;
        www_authenticate := None; etag_header := Some k |}, st).
Proof.
  intros Hcls Hc Hm Hk Hinm.
  destruct (get_handler cls key_func Hcls) as [b Hget].
  assert (Hview : cls = PrivateTopicListAPI.cls
                  ∨ cls = PrivateTopicDetailAPI.cls)
    by (destruct Hcls as [[-> _] | [-> _]]; auto).
  rewrite <- Hm in Hget.
  rewrite (member_dispatch cls request st i _ Hview Hc Hget).
  unfold run_handler; cbn [decorators handler_name body_of foldr].
  unfold decorate. rewrite Hk, decide_True by done.
  rewrite Hm. by rewrite decide_True by (unfold SAFE_METHODS; constructor).
Qed.

(** X9.  The list view has no handler for PUT or PATCH, the detail view
    none for POST: a member is answered 405 and the state is left as it
    was. *)
Theorem other_methods_are_not_allowed (cls : ViewClass) (request : Request)
    (st : State) (i : Z) :
  (cls = PrivateTopicListAPI.cls
   ∧ (method request = "PUT" ∨ method request = "PATCH"))
  ∨ (cls = PrivateTopicDetailAPI.cls ∧ method request = "POST") →
  credentials request = Valid i →
  dispatch cls request st
  = (mkResponse status.HTTP_405_METHOD_NOT_ALLOWED NoBody, st).
Proof.
  intros Hcls Hc. unfold dispatch. unfold bind at 1.
  destruct Hcls as [[-> [Hm | Hm]] | [-> Hm]];
    cbn [view PrivateTopicListAPI.cls PrivateTopicDetailAPI.cls];
    [rewrite (list_initial_member _ _ i Hc), list_handlers
    |rewrite (list_initial_member _ _ i Hc), list_handlers
    |rewrite (detail_initial_member _ _ i Hc), detail_handlers];
    rewrite Hm; by repeat case_decide.
Qed.

(** The lookup of the detail view succeeds for a member who is in the
    one topic of that [pk]. *)
Lemma member_detail_object (request : Request) (st : State) (i v : Z)
    (obj : PrivateTopic) :
  credentials request = Valid i →
  kwargs request !! "pk" = Some v →
  rows (objects.lookup_pk v
          (filter_queryset PrivateTopicDetailAPI.self request objects.all))
       (db st) = [obj] →
  is_participant (Member i) obj = true →
  get_object PrivateTopicDetailAPI.self request st = (inr obj, st).
Proof.
  intros Hc Hpk Hrows Hin.
  rewrite (detail_get_object request st i v Hc Hpk), Hrows. by rewrite Hin.
Qed.

(** X8.  The detail view inherits [patch] but its [get_serializer_class]
    has no answer for PATCH: a participant who patches an existing topic
    is answered 500 (the serializer class is [None]) and nothing is
    changed. *)
Theorem patch_has_no_serializer (request : Request) (st : State) (i v : Z)
    (obj : PrivateTopic) :
  credentials request = Valid i →
  method request = "PATCH" →
  kwargs request !! "pk" = Some v →
  rows (objects.lookup_pk v
          (filter_queryset PrivateTopicDetailAPI.self request objects.all))
       (db st) = [obj] →
  is_participant (Member i) obj = true →
  dispatch PrivateTopicDetailAPI.cls request st
  = (mkResponse status.HTTP_500_INTERNAL_SERVER_ERROR NoBody, st).
Proof.
  intros Hc Hm Hpk Hrows Hin.
  rewrite (member_dispatch _ request st i
             (plain "patch" (generics.update true PrivateTopicDetailAPI.self)));
    [|by right|done|rewrite detail_handlers, Hm; by repeat case_decide].
  unfold run_handler; cbn [decorators body_of plain foldr].
  unfold generics.update. unfold bind at 1.
  rewrite (member_detail_object request st i v obj Hc Hpk Hrows Hin).
  unfold bind at 1, get_serializer.
  cbn [get_serializer_class PrivateTopicDetailAPI.self].
  unfold PrivateTopicDetailAPI.get_serializer_class. rewrite Hm.
  by repeat case_decide.
Qed.

(** X10.  A DELETE of a participant on the detail view is answered by an
    empty 204 and does to the database what [perform_destroy] does to
    that topic for that member, the cache untouched.  A DELETE of the same
    member on the list view whose [pk] values select just that topic has
    the same answer and the same effect. *)
Theorem leaving_a_topic (request : Request) (st : State) (i v : Z)
    (obj : PrivateTopic) :
  credentials request = Valid i →
  method request = "DELETE" →
  kwargs request !! "pk" = Some v →
  rows (objects.lookup_pk v
          (filter_queryset PrivateTopicDetailAPI.self request objects.all))
       (db st) = [obj] →
  is_participant (Member i) obj = true →
  dispatch PrivateTopicDetailAPI.cls request st
  = (mkResponse status.HTTP_204_NO_CONTENT NoBody,
     {| db := leave (Member i) obj (db st); cache := cache st |})
  ∧ ∀ bulk,
      credentials bulk = Valid i →
      method bulk = "DELETE" →
      private_topics_selected (Some i) (getlist "pk" (data bulk)) (db st)
      = [obj] →
      dispatch PrivateTopicListAPI.cls bulk st
      = dispatch PrivateTopicDetailAPI.cls request st.
Proof.
  intros Hc Hm Hpk Hrows Hin.
  assert (Hone : dispatch PrivateTopicDetailAPI.cls request st
    = (mkResponse status.HTTP_204_NO_CONTENT NoBody,
       {| db := leave (Member i) obj (db st); cache := cache st |})).
  { rewrite (member_dispatch _ request st i PrivateTopicDetailAPI.delete);
      [|by right|done|rewrite detail_handlers, Hm; by repeat case_decide].
    unfold run_handler;
      cbn [decorators body_of PrivateTopicDetailAPI.delete plain foldr].
    unfold generics.destroy. unfold bind at 1.
    rewrite (member_detail_object request st i v obj Hc Hpk Hrows Hin).
    cbv [perform_destroy modify_db bind ret get_current_user
         PrivateTopicDetailAPI.self PrivateTopicDetailAPI.get_current_user
         user].
    by rewrite Hc. }
  split; [done|]. intros bulk Hbc Hbm Hsel. rewrite Hone.
  rewrite (member_dispatch _ bulk st i PrivateTopicListAPI.delete);
    [|by left|done|rewrite list_handlers, Hbm; by repeat case_decide].
  unfold run_handler. cbn [decorators PrivateTopicListAPI.delete plain foldr].
  rewrite list_delete_body.
  unfold PrivateTopicListAPI.get_queryset. rewrite decide_True by done.
  cbn [rows]. unfold user. rewrite Hbc. cbn [user_id]. by rewrite Hsel.
Qed.

(** X11.  A PUT of a participant on the detail view is decided by
    [PrivateTopicUpdateSerializer], as a full update: 400 with its errors
    and nothing changed when it refuses the form, 200 with the topic it
    saved and the database it left otherwise; the cache is untouched. *)
Theorem renaming_a_topic (request : Request) (st : State) (i v : Z)
    (obj : PrivateTopic) :
  credentials request = Valid i →
  method request = "PUT" →
  kwargs request !! "pk" = Some v →
  rows (objects.lookup_pk v
          (filter_queryset PrivateTopicDetailAPI.self request objects.all))
       (db st) = [obj] →
  is_participant (Member i) obj = true →
  dispatch PrivateTopicDetailAPI.cls request st
  = match serializer_update PrivateTopicUpdateSerializer false obj (Member i)
            (data request) (db st) with
    | inl errors => (mkResponse status.HTTP_400_BAD_REQUEST (One errors), st)
    | inr (topic, d') =>
        (mkResponse status.HTTP_200_OK
           (One (to_representation PrivateTopicUpdateSerializer topic)),
         {| db := d'; cache := cache st |})
    end.
Proof.
  intros Hc Hm Hpk Hrows Hin.
  rewrite (member_dispatch _ request st i PrivateTopicDetailAPI.put);
    [|by right|done|rewrite detail_handlers, Hm; by repeat case_decide].
  unfold run_handler;
    cbn [decorators body_of PrivateTopicDetailAPI.put plain foldr].
  unfold generics.update. unfold bind at 1.
  rewrite (member_detail_object request st i v obj Hc Hpk Hrows Hin).
  unfold bind at 1, get_serializer.
  cbn [get_serializer_class PrivateTopicDetailAPI.self].
  unfold PrivateTopicDetailAPI.get_serializer_class. rewrite Hm.
  repeat case_decide; try done. cbn. unfold user. rewrite Hc.
  by destruct (serializer_update _ _ _ _ _ _) as [errors | [topic d']].
Qed.

(** X12.  A POST of a member on the list view is decided by
    [PrivateTopicCreateSerializer]: 400 with its errors and nothing
    changed when it refuses the form, 201 with the new topic and the
    database it left otherwise; the cache is untouched, and the queryset
    of the view is not read. *)
Theorem opening_a_topic (request : Request) (st : State) (i : Z) :
  credentials request = Valid i →
  method request = "POST" →
  dispatch PrivateTopicListAPI.cls request st
  = match serializer_create PrivateTopicCreateSerializer (Member i)
            (data request) (db st) with
    | inl errors => (mkResponse status.HTTP_400_BAD_REQUEST (One errors), st)
    | inr (topic, d') =>
        (mkResponse status.HTTP_201_CREATED
           (One (to_representation PrivateTopicCreateSerializer topic)),
         {| db := d'; cache := cache st |})
    end.
Proof.
  intros Hc Hm.
  rewrite (member_dispatch _ request st i PrivateTopicListAPI.post);
    [|by left|done|rewrite list_handlers, Hm; by repeat case_decide].
  unfold run_handler;
    cbn [decorators body_of PrivateTopicListAPI.post plain foldr].
  unfold generics.create. unfold bind at 1, get_serializer.
  cbn [get_serializer_class PrivateTopicListAPI.self].
  unfold PrivateTopicListAPI.get_serializer_class. rewrite Hm.
  repeat case_decide; try done. cbn. unfold user. rewrite Hc.
  by destruct (serializer_create _ _ _ _) as [errors | [topic d']].
Qed.

(** X13.  A GET of a participant on the detail view that neither the
    cache nor [If-None-Match] answers is answered 200 with the topic as
    [PrivateTopicSerializer] renders it, tagged with the key of the
    request; the same response, without the tag, is stored under that key,
    and the database is not changed. *)
Theorem reading_a_topic (request : Request) (st : State) (i v : Z)
    (obj : PrivateTopic) (k : Key) :
  credentials request = Valid i →
  method request = "GET" →
  kwargs request !! "pk" = Some v →
  rows (objects.lookup_pk v
          (filter_queryset PrivateTopicDetailAPI.self request objects.all))
       (db st) = [obj] →
  is_participant (Member i) obj = true →
  calculate_key PrivateTopicDetailAPI.obj_key_func PrivateTopicDetailAPI.self
    "get" request = Some k →
  k ∉ if_none_match request →
  cache_get k (cache st) = None →
  dispatch PrivateTopicDetailAPI.cls request st
  = ({| status_code := status.HTTP_200_OK;
        body := One (to_representation PrivateTopicSerializer obj);
        www_authenticate := None; etag_header := Some k |},
     {| db := db st;
        cache := (k, mkResponse status.HTTP_200_OK
                       (One (to_representation PrivateTopicSerializer obj)))
                 :: cache st |}).
Proof.
  intros Hc Hm Hpk Hrows Hin Hk Hinm Hmiss.
  rewrite (detail_get_miss request st i k Hc Hm Hk Hinm Hmiss).
  unfold generics.retrieve. unfold bind at 1.
  rewrite (member_detail_object request st i v obj Hc Hpk Hrows Hin).
  unfold bind at 1, get_serializer.
  cbn [get_serializer_class PrivateTopicDetailAPI.self].
  unfold PrivateTopicDetailAPI.get_serializer_class. rewrite Hm.
  by rewrite decide_True.
Qed.
End Outcomes.

(** * More of the views at work in the sample deployment *)
#[local] Existing Instance Sample.collaborators.
#[local] Existing Instance Sample.framework.

(** X1 at work: member 1 reads topic 1. *)
Lemma reads_and_writes_are_apart_witness :
  (method Sample.read = "GET" →
   db (dispatch PrivateTopicDetailAPI.cls Sample.read Sample.st0).2
   = db Sample.st0)
  ∧ (method Sample.read ≠ "GET" →
     cache (dispatch PrivateTopicDetailAPI.cls Sample.read Sample.st0).2
     = cache Sample.st0).
Proof.
  apply (reads_and_writes_are_apart PrivateTopicDetailAPI.cls Sample.read
           Sample.st0).
  right; reflexivity.
Defined.

(** X2 at work: member 1 reads topic 1, member 2 renames it, member 1
    reads it again. *)
Lemma cached_answer_outlives_writes_witness :
  dispatch PrivateTopicDetailAPI.cls Sample.read
    (dispatch PrivateTopicDetailAPI.cls Sample.rename
       (dispatch PrivateTopicDetailAPI.cls Sample.read Sample.st0).2).2
  = ((dispatch PrivateTopicDetailAPI.cls Sample.read Sample.st0).1,
     (dispatch PrivateTopicDetailAPI.cls Sample.rename
        (dispatch PrivateTopicDetailAPI.cls Sample.read Sample.st0).2).2).
Proof.
  apply (cached_answer_outlives_writes PrivateTopicDetailAPI.cls
           Sample.read Sample.rename Sample.st0
           (dispatch PrivateTopicDetailAPI.cls Sample.read Sample.st0).2 1
           (dispatch PrivateTopicDetailAPI.cls Sample.read Sample.st0).1);
    [right; reflexivity | reflexivity | reflexivity | discriminate
    | vm_compute; reflexivity | vm_compute; reflexivity].
Defined.


(** X4 at work: member 3 asks for the topic member 1 has just read. *)
Lemma detail_answer_is_shared_witness :
  dispatch PrivateTopicDetailAPI.cls Sample.peek
    (dispatch PrivateTopicDetailAPI.cls Sample.read Sample.st0).2
  = ((dispatch PrivateTopicDetailAPI.cls Sample.read Sample.st0).1,
     (dispatch PrivateTopicDetailAPI.cls Sample.read Sample.st0).2).
Proof.
  apply (detail_answer_is_shared Sample.read Sample.peek Sample.st0
           (dispatch PrivateTopicDetailAPI.cls Sample.read Sample.st0).2 1 3
           (default ∅ (calculate_key PrivateTopicDetailAPI.obj_key_func
                         PrivateTopicDetailAPI.self "get" Sample.read))
           (dispatch PrivateTopicDetailAPI.cls Sample.read Sample.st0).1);
    try reflexivity; vm_compute; reflexivity.
Defined.

(** X5 at work: member 3, who is not in topic 1, revalidates it. *)
Lemma conditional_get_is_not_modified_witness :
  dispatch PrivateTopicDetailAPI.cls Sample.revalidate Sample.st0
  = ({| status_code := status.HTTP_304_NOT_MODIFIED; body := NoBody;
        www_authenticate := None;
        etag_header :=
          Some (default ∅
                  (calculate_key PrivateTopicDetailAPI.obj_key_func
                     PrivateTopicDetailAPI.self "get" Sample.peek)) |},
     Sample.st0).
Proof.
  apply (conditional_get_is_not_modified PrivateTopicDetailAPI.cls
           PrivateTopicDetailAPI.obj_key_func Sample.revalidate Sample.st0 3);
    [right; split; reflexivity | reflexivity | reflexivity
    | vm_compute; reflexivity | constructor].
Defined.

(** X6 at work: member 3 tries to rename topic 1. *)
Lemma detail_refuses_non_participant_witness :
  dispatch PrivateTopicDetailAPI.cls Sample.rename3 Sample.st0
  = (mkResponse status.HTTP_403_FORBIDDEN NoBody, Sample.st0).
Proof.
  apply (detail_refuses_non_participant Sample.rename3 Sample.st0 3 1
           Sample.topic1);
    [reflexivity | reflexivity | vm_compute; reflexivity | reflexivity
    | left; reflexivity].
Defined.

(** X7 at work: member 1 leaves a topic that does not exist. *)
Lemma detail_unknown_is_404_witness :
  dispatch PrivateTopicDetailAPI.cls Sample.missing_topic Sample.st0
  = (mkResponse status.HTTP_404_NOT_FOUND NoBody, Sample.st0).
Proof.
  apply (detail_unknown_is_404 Sample.missing_topic Sample.st0 1 9);
    [reflexivity | reflexivity | vm_compute; reflexivity
    | right; left; reflexivity].
Defined.

(** X8 at work: member 2 patches topic 1. *)
Lemma patch_has_no_serializer_witness :
  dispatch PrivateTopicDetailAPI.cls Sample.patch Sample.st0
  = (mkResponse status.HTTP_500_INTERNAL_SERVER_ERROR NoBody, Sample.st0).
Proof.
  apply (patch_has_no_serializer Sample.patch Sample.st0 2 1 Sample.topic1);
    [reflexivity | reflexivity | reflexivity | vm_compute; reflexivity
    | reflexivity].
Defined.

(** X9 at work: member 1 puts to the list endpoint. *)
Lemma other_methods_are_not_allowed_witness :
  dispatch PrivateTopicListAPI.cls Sample.put_list Sample.st0
  = (mkResponse status.HTTP_405_METHOD_NOT_ALLOWED NoBody, Sample.st0).
Proof.
  apply (other_methods_are_not_allowed PrivateTopicListAPI.cls Sample.put_list
           Sample.st0 1);
    [left; split; [reflexivity | left; reflexivity] | reflexivity].
Defined.

(** X10 at work: member 2 leaves topic 1. *)
Lemma leaving_a_topic_witness :
  dispatch PrivateTopicDetailAPI.cls Sample.leave1 Sample.st0
  = (mkResponse status.HTTP_204_NO_CONTENT NoBody,
     {| db := leave (Member 2) Sample.topic1 (db Sample.st0);
        cache := cache Sample.st0 |})
  ∧ ∀ bulk,
      credentials bulk = Valid 2 →
      method bulk = "DELETE" →
      private_topics_selected (Some 2%Z) (getlist "pk" (data bulk))
        (db Sample.st0) = [Sample.topic1] →
      dispatch PrivateTopicListAPI.cls bulk Sample.st0
      = dispatch PrivateTopicDetailAPI.cls Sample.leave1 Sample.st0.
Proof.
  apply (leaving_a_topic Sample.leave1 Sample.st0 2 1 Sample.topic1);
    [reflexivity | reflexivity | reflexivity | vm_compute; reflexivity
    | reflexivity].
Defined.

(** X11 at work: member 2 renames topic 1. *)
Lemma renaming_a_topic_witness :
  dispatch PrivateTopicDetailAPI.cls Sample.rename Sample.st0
  = match serializer_update PrivateTopicUpdateSerializer false Sample.topic1
            (Member 2) (data Sample.rename) (db Sample.st0) with
    | inl errors => (mkResponse status.HTTP_400_BAD_REQUEST (One errors),
                     Sample.st0)
    | inr (topic, d') =>
        (mkResponse status.HTTP_200_OK
           (One (to_representation PrivateTopicUpdateSerializer topic)),
         {| db := d'; cache := cache Sample.st0 |})
    end.
Proof.
  apply (renaming_a_topic Sample.rename Sample.st0 2 1 Sample.topic1);
    [reflexivity | reflexivity | reflexivity | vm_compute; reflexivity
    | reflexivity].
Defined.

(** X12 at work: member 2 opens a topic without a title. *)
Lemma opening_a_topic_witness :
  dispatch PrivateTopicListAPI.cls Sample.open_untitled Sample.st0
  = match serializer_create PrivateTopicCreateSerializer (Member 2)
            (data Sample.open_untitled) (db Sample.st0) with
    | inl errors => (mkResponse status.HTTP_400_BAD_REQUEST (One errors),
                     Sample.st0)
    | inr (topic, d') =>
        (mkResponse status.HTTP_201_CREATED
           (One (to_representation PrivateTopicCreateSerializer topic)),
         {| db := d'; cache := cache Sample.st0 |})
    end.
Proof.
  apply (opening_a_topic Sample.open_untitled Sample.st0 2); reflexivity.
Defined.

(** X13 at work: member 1 reads topic 1 on a cold cache. *)
Lemma reading_a_topic_witness :
  dispatch PrivateTopicDetailAPI.cls Sample.read Sample.st0
  = ({| status_code := status.HTTP_200_OK;
        body := One (to_representation PrivateTopicSerializer Sample.topic1);
        www_authenticate := None;
        etag_header :=
          Some (default ∅
                  (calculate_key PrivateTopicDetailAPI.obj_key_func
                     PrivateTopicDetailAPI.self "get" Sample.read)) |},
     {| db := db Sample.st0;
        cache :=
          (default ∅
             (calculate_key PrivateTopicDetailAPI.obj_key_func
                PrivateTopicDetailAPI.self "get" Sample.read),
           mkResponse status.HTTP_200_OK
             (One (to_representation PrivateTopicSerializer Sample.topic1)))
          :: cache Sample.st0 |}).
Proof.
  apply (reading_a_topic Sample.read Sample.st0 1 1 Sample.topic1);
    [reflexivity | reflexivity | reflexivity | vm_compute; reflexivity
    | reflexivity | vm_compute; reflexivity | apply not_elem_of_nil
    | reflexivity].
Defined.

(** What the sample shows of these: the rename reaches the database while
    the cached answer keeps the old title; the new topic gets the next
    identifier; the form without a title is refused. *)
Lemma sample_outcomes :
  Sample.title <$>
    db (dispatch PrivateTopicDetailAPI.cls Sample.rename
          (dispatch PrivateTopicDetailAPI.cls Sample.read Sample.st0).2).2
  = ["Relu"; "Projet"; "Notes"]
  ∧ body (dispatch PrivateTopicDetailAPI.cls Sample.read
            (dispatch PrivateTopicDetailAPI.cls Sample.rename
               (dispatch PrivateTopicDetailAPI.cls Sample.read
                  Sample.st0).2).2).1
    = One [("id", "1"); ("title", "Relecture")]
  ∧ (dispatch PrivateTopicListAPI.cls Sample.open_topic Sample.st0).1
    = mkResponse status.HTTP_201_CREATED
        (One [("id", "4"); ("title", "Sortie")])
  ∧ dispatch PrivateTopicListAPI.cls Sample.open_untitled Sample.st0
    = (mkResponse status.HTTP_400_BAD_REQUEST (One [("title", "required")]),
       Sample.st0)
  ∧ dispatch PrivateTopicListAPI.cls Sample.delete1 Sample.st0
    = dispatch PrivateTopicDetailAPI.cls Sample.leave1 Sample.st0.
Proof. repeat split; vm_compute; reflexivity. Qed.
